(** * Context-Aware Spell Checker: a shallow embedding of [spell_checker.py]

    The development follows the layout of the Python module:

    - [PyStr]: the [str] methods the module calls ([lower], [split],
      [replace], [in], slicing, [join]);
    - [MockDatabase]: the SQLite-backed lexicon store (schema, seeding,
      queries);
    - [Checker]: [ContextAwareSpellChecker], parameterised by its external
      collaborators (spaCy tokenizer, enchant dictionary, fill-mask
      pipeline, textstat);
    - [Spec]: reference definitions the properties are stated with;
    - [Fixtures]: deterministic test doubles for the collaborators;
    - the properties.

    Conventions.  A Python [str] is a Rocq [string] whose characters are read
    as the code points U+0000..U+00FF, so [len] is [String.length].  A Python
    [float] is an exact rational ([Q]): rounding is not modelled.  A raised
    exception is the [Raise] constructor of [result].  Output written with
    [print] is not modelled. *)

From Stdlib Require Import String Ascii List Bool Arith ZArith QArith Lia NArith.
From Stdlib Require Import Permutation.
Import ListNotations.

Close Scope Q_scope.
Open Scope nat_scope.
Open Scope list_scope.
Open Scope string_scope.

(* ------------------------------------------------------------------ *)
(** ** Exceptions *)

Inductive exn : Type :=
| StopIteration
| IndexError
| OperationalError (msg : string)
| CollaboratorError (msg : string).

Inductive result (A : Type) : Type :=
| Ok (a : A)
| Raise (e : exn).

Arguments Ok {A} a.
Arguments Raise {A} e.

Definition bind {A B : Type} (m : result A) (k : A -> result B) : result B :=
  match m with
  | Ok a => k a
  | Raise e => Raise e
  end.

Notation "x <- m ;; k" := (bind m (fun x => k))
  (at level 61, m at next level, right associativity).

(** [for x in xs: st = body(st, x)], where the body may raise. *)
Fixpoint for_each {A S : Type} (body : S -> A -> result S) (xs : list A) (st : S)
  : result S :=
  match xs with
  | [] => Ok st
  | x :: xs' => st' <- body st x ;; for_each body xs' st'
  end.

(* ------------------------------------------------------------------ *)
(** ** Python string operations *)

Module PyStr.

(** [str.isspace] on one character, for code points below 256:
    TAB..CR, FS..US, SPACE, NEL (U+0085) and NBSP (U+00A0). *)
Definition isspace (c : ascii) : bool :=
  let n := nat_of_ascii c in
  (((9 <=? n) && (n <=? 13)) || ((28 <=? n) && (n <=? 32))
   || (n =? 133) || (n =? 160))%nat.

(** [str.lower] on one character: A..Z and the Latin-1 capitals
    U+00C0..U+00DE (except the multiplication sign U+00D7) move up by 32. *)
Definition lower_char (c : ascii) : ascii :=
  let n := nat_of_ascii c in
  if (((65 <=? n) && (n <=? 90))
      || ((192 <=? n) && (n <=? 222) && negb (n =? 215)))%nat
  then ascii_of_nat (n + 32)
  else c.

Fixpoint lower (s : string) : string :=
  match s with
  | EmptyString => EmptyString
  | String c s' => String (lower_char c) (lower s')
  end.

(** Truthiness of a string: [if s:] holds unless [s] is empty. *)
Definition truthy (s : string) : bool :=
  match s with
  | EmptyString => false
  | String _ _ => true
  end.

(** Slices [s[:n]] and [s[n:]] for [n >= 0]; out-of-range bounds clip. *)
Fixpoint take (n : nat) (s : string) : string :=
  match n, s with
  | S n', String c s' => String c (take n' s')
  | _, _ => EmptyString
  end.

Fixpoint drop (n : nat) (s : string) : string :=
  match n, s with
  | S n', String _ s' => drop n' s'
  | _, _ => s
  end.

(** [sep.join(ws)]. *)
Definition join (sep : string) (ws : list string) : string :=
  String.concat sep ws.

(** [s.find(sub)]: offset of the first occurrence, [None] for -1. *)
Fixpoint find (s sub : string) : option nat :=
  if String.prefix sub s then Some 0
  else match s with
       | EmptyString => None
       | String _ s' => option_map S (find s' sub)
       end.

(** [sub in s]. *)
Definition contains (s sub : string) : bool :=
  match find s sub with
  | Some _ => true
  | None => false
  end.

(** [s.replace(old, new)] for a non-empty [old]: scan left to right; at an
    occurrence of [old] emit [new] and skip the occurrence ([skip] counts
    the characters of it still to pass), otherwise copy one character. *)
Fixpoint replace_scan (skip : nat) (s old new : string) : string :=
  match s with
  | EmptyString => EmptyString
  | String c s' =>
      match skip with
      | S k => replace_scan k s' old new
      | O =>
          if String.prefix old s
          then new ++ replace_scan (String.length old - 1) s' old new
          else String c (replace_scan 0 s' old new)
      end
  end.

(** [s.replace("", new)]: [new] before every character and at the end. *)
Fixpoint interleave (s new : string) : string :=
  match s with
  | EmptyString => new
  | String c s' => new ++ String c (interleave s' new)
  end.

Definition replace (s old new : string) : string :=
  match old with
  | EmptyString => interleave s new
  | String _ _ => replace_scan 0 s old new
  end.

(** [s.split()]: the maximal runs of non-whitespace characters.  A
    non-space character either opens a run (when a space or the end
    follows) or extends the run that starts right after it. *)
Definition starts_word (s : string) : bool :=
  match s with
  | EmptyString => false
  | String c _ => negb (isspace c)
  end.

Fixpoint split (s : string) : list string :=
  match s with
  | EmptyString => []
  | String c s' =>
      if isspace c then split s'
      else if starts_word s'
           then match split s' with
                | w :: ws => String c w :: ws
                | [] => [String c EmptyString]
                end
           else String c EmptyString :: split s'
  end.

(** [s.split(sep)] for a one-character separator: every separator cuts,
    empty fields are kept, and the empty string gives one empty field. *)
Fixpoint split_on (sep : ascii) (s : string) : list string :=
  match s with
  | EmptyString => [EmptyString]
  | String c s' =>
      if Ascii.eqb c sep then EmptyString :: split_on sep s'
      else match split_on sep s' with
           | w :: ws => String c w :: ws
           | [] => [String c EmptyString]
           end
  end.

(** [xs.index(x)] on a list of strings: [None] stands for [ValueError]. *)
Fixpoint index (xs : list string) (x : string) : option nat :=
  match xs with
  | [] => None
  | y :: ys => if String.eqb y x then Some 0 else option_map S (index ys x)
  end.

(** [xs[start:stop]] for [0 <= start] and [0 <= stop]. *)
Definition slice {A : Type} (xs : list A) (start stop : nat) : list A :=
  firstn (stop - start) (skipn start xs).

(** [x in xs] on a list of strings. *)
Definition mem (x : string) (xs : list string) : bool :=
  existsb (String.eqb x) xs.

End PyStr.

(* ------------------------------------------------------------------ *)
(** ** [class MockDatabase]: the SQLite lexicon store *)

Module MockDatabase.

(** A table with an [id INTEGER PRIMARY KEY AUTOINCREMENT] column: the
    stored rows with their ids, in insertion order, and the largest id ever
    handed out (SQLite keeps it in [sqlite_sequence]). *)
Record table (R : Type) : Type := mk_table {
  rows : list (Z * R);
  seq : Z
}.

Arguments mk_table {R} rows seq.
Arguments rows {R} t.
Arguments seq {R} t.

Definition empty_table {R : Type} : table R := mk_table [] 0%Z.

(** Columns of [misspellings] other than [id] and [created_at] (a
    timestamp the program never reads). *)
Record misspelling : Type := mk_misspelling {
  incorrect_word : string;
  correct_word : string;
  frequency : Z;
  context_examples : string
}.

(** Columns of [homophones] other than [id]. *)
Record homophone : Type := mk_homophone {
  word_group : string;
  words : string;
  context_rules : string;
  examples : string
}.

(** Columns of [context_patterns] other than [id]. *)
Record context_pattern : Type := mk_context_pattern {
  pattern : string;
  pattern_word : string;
  pattern_confidence : Q;
  description : string
}.

(** The database file once its three tables exist. *)
Record db_file : Type := mk_db {
  misspellings : table misspelling;
  homophones : table homophone;
  context_patterns : table context_pattern
}.

(** [init_database]: three [CREATE TABLE IF NOT EXISTS].  [None] is a path
    with no tables yet; existing tables are kept as they are.  None of the
    tables declares a [UNIQUE] column: the only key is [id]. *)
Definition init_database (file : option db_file) : db_file :=
  match file with
  | Some db => db
  | None => mk_db empty_table empty_table empty_table
  end.

(** The id AUTOINCREMENT gives to a new row: one more than the largest id
    that has ever been in the table. *)
Definition next_id {R : Type} (t : table R) : Z :=
  (fold_left Z.max (map fst (rows t)) (seq t) + 1)%Z.

(** [INSERT OR IGNORE] of one row that does not name its [id]: the row is
    skipped only when it would violate a constraint of the table.  The
    values bound from Python strings and integers are never NULL, so the
    one constraint left to check is the primary key on the fresh [id]. *)
Definition insert_or_ignore {R : Type} (t : table R) (r : R) : table R :=
  let new_id := next_id t in
  if existsb (fun row => Z.eqb (fst row) new_id) (rows t)
  then t
  else mk_table (rows t ++ [(new_id, r)]) new_id.

(** [cursor.executemany] of an [INSERT OR IGNORE] statement. *)
Definition executemany {R : Type} (t : table R) (params : list R) : table R :=
  fold_left insert_or_ignore params t.

Definition sample_misspellings : list misspelling :=
  [ mk_misspelling "recieve" "receive" 5 "I will recieve the package tomorrow.";
    mk_misspelling "seperate" "separate" 3 "Please seperate the items.";
    mk_misspelling "definately" "definitely" 4 "I will definately be there.";
    mk_misspelling "occured" "occurred" 2 "The event occured yesterday.";
    mk_misspelling "accomodate" "accommodate" 3 "We can accomodate your request." ].

Definition sample_homophones : list homophone :=
  [ mk_homophone "there/their/they're" "there,their,they're"
      "location,possession,contraction"
      "There is a book. Their book is red. They're coming.";
    mk_homophone "to/too/two" "to,too,two" "preposition,adverb,number"
      "Go to the store. It's too hot. Two people came.";
    mk_homophone "your/you're" "your,you're" "possession,contraction"
      "Your car is nice. You're welcome.";
    mk_homophone "its/it's" "its,it's" "possession,contraction"
      "The dog wagged its tail. It's raining." ].

(** [populate_sample_data]: the seed operation. *)
Definition populate_sample_data (db : db_file) : db_file :=
  mk_db (executemany (misspellings db) sample_misspellings)
        (executemany (homophones db) sample_homophones)
        (context_patterns db).

(** [MockDatabase.__init__] on a database path whose content is [file]. *)
Definition new (file : option db_file) : db_file :=
  populate_sample_data (init_database file).

(** [get_misspellings]:
    [SELECT incorrect_word, correct_word, frequency FROM misspellings]. *)
Definition get_misspellings (db : db_file) : list (string * string * Z) :=
  map (fun row => (incorrect_word (snd row), correct_word (snd row),
                   frequency (snd row)))
      (rows (misspellings db)).

(** One entry of the list [get_homophones] returns. *)
Record HomophoneGroup : Type := mk_group {
  group : string;
  group_words : list string;
  rules : string;
  group_examples : string
}.

Definition get_homophones (db : db_file) : list HomophoneGroup :=
  map (fun row => mk_group (word_group (snd row))
                           (PyStr.split_on "," (words (snd row)))
                           (context_rules (snd row))
                           (examples (snd row)))
      (rows (homophones db)).

(** The seed operation run [n] times on an initialised database. *)
Fixpoint reseed (n : nat) (db : db_file) : db_file :=
  match n with
  | O => db
  | S n' => populate_sample_data (reseed n' db)
  end.

End MockDatabase.

(* ------------------------------------------------------------------ *)
(** ** [class ContextAwareSpellChecker] *)

Module Checker.

Import MockDatabase.

(** A spaCy token, with the three attributes the module reads. *)
Record Token : Type := mk_token {
  token_text : string;
  token_idx : nat;
  token_is_alpha : bool
}.

(** One entry of the fill-mask pipeline's answer. *)
Record Prediction : Type := mk_prediction {
  token_str : string;
  score : Q
}.

(** The dict [detect_errors] builds for a flagged token. *)
Record DetectedError : Type := mk_error {
  err_word : string;
  err_position : nat;
  err_type : string;
  err_suggestions : list string;
  err_confidence : option Q
}.

(** The dict [correct_text] records for an applied correction. *)
Record CorrectionRecord : Type := mk_correction {
  original : string;
  corrected : string;
  correction_type : string
}.

Record SpellCheckResult : Type := mk_result {
  original_text : string;
  corrected_text : string;
  suggestions : list DetectedError;
  confidence_score : Q;
  error_type : string;
  corrections_made : list CorrectionRecord
}.

(** The dict [get_text_statistics] returns. *)
Record TextStatistics : Type := mk_statistics {
  word_count : nat;
  character_count : nat;
  sentence_count : Z;
  flesch_reading_ease : Q;
  flesch_kincaid_grade : Q;
  readability_score : Q
}.

(** The attributes of [self] the methods use, and the [textstat] functions
    they call.  The external collaborators are functions of their
    arguments; only the fill-mask pipeline is given a failure mode, because
    it is the one call the module guards with [try]. *)
Record ContextAwareSpellChecker : Type := mk_checker {
  db : db_file;
  nlp : string -> list Token;
  enchant_dict_check : string -> bool;
  enchant_dict_suggest : string -> list string;
  fill_mask_pipeline : string -> nat -> result (list Prediction);
  textstat_sentence_count : string -> Z;
  textstat_flesch_reading_ease : string -> Q;
  textstat_flesch_kincaid_grade : string -> Q;
  textstat_automated_readability_index : string -> Q
}.

(** [any(k in context for k in keywords)]. *)
Definition any_in (context : string) (keywords : list string) : bool :=
  existsb (PyStr.contains context) keywords.

(** [_get_context_window(doc, target_word, window_size)]. *)
Definition _get_context_window (doc : list Token) (target_word : string)
    (window_size : nat) : string :=
  let words := map token_text doc in
  match PyStr.index words target_word with
  | Some idx =>
      let start := Z.to_nat (Z.max 0 (Z.of_nat idx - Z.of_nat window_size)) in
      let stop := Nat.min (length words) (idx + window_size + 1) in
      PyStr.join " " (PyStr.slice words start stop)
  | None => ""
  end.

(** [_analyze_homophone_context(word, context, group)]. *)
Definition _analyze_homophone_context (word context : string)
    (group : HomophoneGroup) : option string :=
  let context_lower := PyStr.lower context in
  if PyStr.lower word =? "there" then
    if any_in context_lower ["is"; "are"; "was"; "were"]
    then Some "there" else None
  else if PyStr.lower word =? "their" then
    if any_in context_lower ["book"; "car"; "house"; "name"]
    then Some "their" else None
  else if PyStr.lower word =? "they're" then
    if any_in context_lower ["coming"; "going"; "here"; "there"]
    then Some "they're" else None
  else None.

(** [next(token.idx for token in doc if token.text == word)]. *)
Definition first_token_idx (doc : list Token) (word : string) : result nat :=
  match List.find (fun token => token_text token =? word) doc with
  | Some token => Ok (token_idx token)
  | None => Raise StopIteration
  end.

(** The loop of [_check_homophones] over the homophone groups, with the
    context analysis it calls through [self] as a parameter. *)
Fixpoint check_groups (analyze : string -> string -> HomophoneGroup -> option string)
    (word : string) (doc : list Token) (groups : list HomophoneGroup)
  : result (option DetectedError) :=
  match groups with
  | [] => Ok None
  | g :: rest =>
      if PyStr.mem (PyStr.lower word) (group_words g) then
        let context := _get_context_window doc word 3 in
        match analyze word context g with
        | Some correct_word =>
            if PyStr.truthy correct_word
               && negb (PyStr.lower correct_word =? PyStr.lower word)
            then
              position <- first_token_idx doc word ;;
              Ok (Some (mk_error word position "homophone" [correct_word]
                                 (Some 0.8%Q)))
            else check_groups analyze word doc rest
        | None => check_groups analyze word doc rest
        end
      else check_groups analyze word doc rest
  end.

Definition _check_homophones_with
    (analyze : string -> string -> HomophoneGroup -> option string)
    (self : ContextAwareSpellChecker) (word : string) (doc : list Token)
  : result (option DetectedError) :=
  let homophone_groups := get_homophones (db self) in
  check_groups analyze word doc homophone_groups.

(** [_check_homophones(word, doc)]. *)
Definition _check_homophones (self : ContextAwareSpellChecker)
    (word : string) (doc : list Token) : result (option DetectedError) :=
  _check_homophones_with _analyze_homophone_context self word doc.

(** The body of the loop of [detect_errors]. *)
Definition detect_token (self : ContextAwareSpellChecker) (doc : list Token)
    (errors : list DetectedError) (token : Token) : result (list DetectedError) :=
  if token_is_alpha token then
    let errors :=
      if negb (enchant_dict_check self (PyStr.lower (token_text token)))
      then (errors ++ [mk_error (token_text token) (token_idx token) "spelling"
                         (enchant_dict_suggest self (PyStr.lower (token_text token)))
                         None])%list
      else errors in
    homophone_error <- _check_homophones self (token_text token) doc ;;
    match homophone_error with
    | Some e => Ok (errors ++ [e])%list
    | None => Ok errors
    end
  else Ok errors.

(** [detect_errors(text)]. *)
Definition detect_errors (self : ContextAwareSpellChecker) (text : string)
  : result (list DetectedError) :=
  let doc := nlp self text in
  for_each (detect_token self doc) doc [].

(** [_bert_correct_spelling(text, word, position)]: whatever the pipeline
    call raises is caught, and the method then returns [None]. *)
Definition _bert_correct_spelling (self : ContextAwareSpellChecker)
    (text word : string) (position : nat) : option string :=
  let masked_text :=
    PyStr.take position text ++ "[MASK]"
    ++ PyStr.drop (position + String.length word) text in
  match fill_mask_pipeline self masked_text 5 with
  | Ok predictions =>
      let valid_predictions :=
        filter (fun p => negb (PyStr.lower (token_str p) =? PyStr.lower word))
               predictions in
      match valid_predictions with
      | p :: _ => Some (token_str p)
      | [] => None
      end
  | Raise _ => None
  end.

(** The weight [_calculate_confidence] appends for one correction. *)
Definition type_confidence (correction : CorrectionRecord) : Q :=
  if correction_type correction =? "spelling" then 0.9%Q
  else if correction_type correction =? "homophone" then 0.8%Q
  else 0.7%Q.

(** [sum(xs)] on floats: left to right from 0. *)
Definition sum (xs : list Q) : Q := fold_left Qplus xs 0%Q.

(** [_calculate_confidence(corrections)]. *)
Definition _calculate_confidence (corrections : list CorrectionRecord) : Q :=
  match corrections with
  | [] => 1.0%Q
  | _ :: _ =>
      let confidence_scores :=
        fold_left (fun scores correction =>
                     (scores ++ [type_confidence correction])%list)
                  corrections [] in
      (sum confidence_scores / inject_Z (Z.of_nat (length confidence_scores)))%Q
  end.

(** The state of the loop of [correct_text]: the working text and the
    corrections recorded so far. *)
Definition working : Type := (string * list CorrectionRecord)%type.

(** The body of the loop of [correct_text] ([text] is the original input). *)
Definition correct_step (self : ContextAwareSpellChecker) (text : string)
    (st : working) (error : DetectedError) : result working :=
  let (working_text, corrections) := st in
  if err_type error =? "spelling" then
    match _bert_correct_spelling self text (err_word error) (err_position error) with
    | Some suggestion =>
        if PyStr.truthy suggestion
        then Ok (PyStr.replace working_text (err_word error) suggestion,
                 (corrections
                  ++ [mk_correction (err_word error) suggestion "spelling"])%list)
        else Ok st
    | None => Ok st
    end
  else if err_type error =? "homophone" then
    match err_suggestions error with
    | suggestion :: _ =>
        Ok (PyStr.replace working_text (err_word error) suggestion,
            (corrections
             ++ [mk_correction (err_word error) suggestion "homophone"])%list)
    | [] => Raise IndexError
    end
  else Ok st.

(** The loop of [correct_text] over the detected errors. *)
Definition apply_corrections (self : ContextAwareSpellChecker) (text : string)
    (errors : list DetectedError) : result working :=
  for_each (correct_step self text) errors (text, []).

(** [correct_text(text)]. *)
Definition correct_text (self : ContextAwareSpellChecker) (text : string)
  : result SpellCheckResult :=
  errors <- detect_errors self text ;;
  st <- apply_corrections self text errors ;;
  let confidence := _calculate_confidence (snd st) in
  Ok (mk_result text (fst st) errors confidence "mixed" (snd st)).

(** [get_text_statistics(text)]. *)
Definition get_text_statistics (self : ContextAwareSpellChecker) (text : string)
  : TextStatistics :=
  mk_statistics (length (PyStr.split text))
                (String.length text)
                (textstat_sentence_count self text)
                (textstat_flesch_reading_ease self text)
                (textstat_flesch_kincaid_grade self text)
                (textstat_automated_readability_index self text).

End Checker.

(* ------------------------------------------------------------------ *)
(** ** Reference definitions used to state the properties

    [replace_first], [count_tokens], [weight] and [mean_weight] follow the
    wording of the specification, to be compared with what the code
    computes; [accepted] and [spelling_errors] name parts of the code's own
    behaviour. *)

Module Spec.

Import Checker.

(** Replacement of the first occurrence of [old] only (Python's
    [s.replace(old, new, 1)]): what section 4.4 of the specification
    describes. *)
Definition replace_first (s old new : string) : string :=
  match PyStr.find s old with
  | Some i => PyStr.take i s ++ new ++ PyStr.drop (i + String.length old) s
  | None => s
  end.

(** The number of whitespace-delimited tokens of a text: the positions
    where a non-whitespace character follows the start of the text or a
    whitespace character.  [in_word] tells whether the previous character
    was part of a token. *)
Fixpoint count_tokens (in_word : bool) (s : string) : nat :=
  match s with
  | EmptyString => 0
  | String c s' =>
      if PyStr.isspace c then count_tokens false s'
      else (if in_word then 0 else 1) + count_tokens true s'
  end.

(** A string without whitespace characters. *)
Fixpoint no_space (s : string) : bool :=
  match s with
  | EmptyString => true
  | String c s' => negb (PyStr.isspace c) && no_space s'
  end.




(** The candidate [correct_text] resolves for a detected error and goes on
    to apply: the non-empty answer of the external corrector for a spelling
    error, the first suggestion for a homophone error. *)
Definition accepted (self : ContextAwareSpellChecker) (text : string)
    (error : DetectedError) : option string :=
  if err_type error =? "spelling" then
    match _bert_correct_spelling self text (err_word error) (err_position error) with
    | Some suggestion => if PyStr.truthy suggestion then Some suggestion else None
    | None => None
    end
  else if err_type error =? "homophone" then hd_error (err_suggestions error)
  else None.

(** The errors [detect_errors] reports for a tokenized text: one spelling
    error per alphabetic token the dictionary rejects, in token order. *)
Definition spelling_errors (self : ContextAwareSpellChecker) (doc : list Token)
  : list DetectedError :=
  flat_map (fun token =>
              if token_is_alpha token
                 && negb (enchant_dict_check self (PyStr.lower (token_text token)))
              then [mk_error (token_text token) (token_idx token) "spelling"
                      (enchant_dict_suggest self (PyStr.lower (token_text token)))
                      None]
              else [])
           doc.

(** The last [n] elements of a list. *)
Definition lastn {A : Type} (n : nat) (xs : list A) : list A :=
  skipn (length xs - n) xs.

End Spec.

(* ------------------------------------------------------------------ *)
(** ** Test doubles for the external collaborators *)

Module Fixtures.

Import MockDatabase Checker.

(** A letter of the ASCII alphabet. *)
Definition is_letter (c : ascii) : bool :=
  let n := nat_of_ascii c in
  (((65 <=? n) && (n <=? 90)) || ((97 <=? n) && (n <=? 122)))%nat.

Fixpoint all_letters (s : string) : bool :=
  match s with
  | EmptyString => true
  | String c s' => is_letter c && all_letters s'
  end.

(** A tokenizer double: the whitespace-delimited runs of the text with
    their character offsets. *)
Fixpoint runs (offset : nat) (s : string) : list (nat * string) :=
  match s with
  | EmptyString => []
  | String c s' =>
      if PyStr.isspace c then runs (S offset) s'
      else if PyStr.starts_word s'
           then match runs (S offset) s' with
                | (_, w) :: ws => (offset, String c w) :: ws
                | [] => [(offset, String c EmptyString)]
                end
           else (offset, String c EmptyString) :: runs (S offset) s'
  end.

Definition whitespace_nlp (text : string) : list Token :=
  map (fun r => mk_token (snd r) (fst r) (all_letters (snd r))) (runs 0 text).

(** A dictionary double: a fixed word list, and no suggestions. *)
Definition known_words : list string :=
  [ "a"; "cat"; "sandwich"; "the"; "which"; "is"; "this"; "test"; "book";
    "there"; "their"; "going"; "to"; "store" ].

Definition word_list_check (w : string) : bool := PyStr.mem w known_words.

Definition no_suggestions (w : string) : list string := [].

(** Fill-mask doubles: a fixed ranked answer, and a failing service. *)
Definition fixed_pipeline (answer : list Prediction) (masked_text : string)
    (top_k : nat) : result (list Prediction) :=
  Ok (firstn top_k answer).

Definition failing_pipeline (masked_text : string) (top_k : nat)
  : result (list Prediction) :=
  Raise (CollaboratorError "fill-mask service unavailable").

(** The database a first run of the program leaves behind. *)
Definition seeded_db : db_file := MockDatabase.new None.

Definition checker_with (pipeline : string -> nat -> result (list Prediction))
  : ContextAwareSpellChecker :=
  mk_checker seeded_db whitespace_nlp word_list_check no_suggestions pipeline
             (fun _ => 1%Z) (fun _ => 0%Q) (fun _ => 0%Q) (fun _ => 0%Q).

Definition which_checker : ContextAwareSpellChecker :=
  checker_with (fixed_pipeline [ mk_prediction "wich" (5 # 10);
                                 mk_prediction "which" (4 # 10);
                                 mk_prediction "witch" (1 # 10) ]).

Definition offline_checker : ContextAwareSpellChecker :=
  checker_with failing_pipeline.

(** A context analysis that does propose another member of the group, as
    the demo expects for "Their going". *)
Definition proposing_analysis (word context : string) (g : HomophoneGroup)
  : option string :=
  if PyStr.lower word =? "their" then Some "they're" else None.

End Fixtures.

(* ------------------------------------------------------------------ *)
(** ** [web_app.py]: the spell-check endpoint *)

Module WebApp.

Import Checker.





End WebApp.

(* ------------------------------------------------------------------ *)
(** ** Further reference definitions *)

Module Terms.

Import Checker.

(** A token [detect_errors] flags: alphabetic, and its lower-case form is
    not in the dictionary. *)
Definition flagged (self : ContextAwareSpellChecker) (token : Token) : bool :=
  token_is_alpha token
  && negb (enchant_dict_check self (PyStr.lower (token_text token))).

(** A text made of whitespace characters only. *)
Fixpoint all_space (s : string) : bool :=
  match s with
  | EmptyString => true
  | String c s' => PyStr.isspace c && all_space s'
  end.

(** The number of occurrences of a character in a string. *)
Fixpoint count_char (c : ascii) (s : string) : nat :=
  match s with
  | EmptyString => 0
  | String d s' => (if Ascii.eqb d c then 1 else 0) + count_char c s'
  end.

(** The first ranked candidate that differs case-insensitively from
    [word], if the model answered and one is left. *)
Definition first_valid (word : string) (answer : result (list Prediction))
  : option string :=
  match answer with
  | Ok predictions =>
      hd_error (map token_str
                  (filter (fun p => negb (PyStr.lower (token_str p)
                                          =? PyStr.lower word))
                          predictions))
  | Raise _ => None
  end.

(** The groups [get_homophones] builds from the sample rows. *)
Definition sample_groups : list MockDatabase.HomophoneGroup :=
  map (fun row => MockDatabase.mk_group (MockDatabase.word_group row)
                    (PyStr.split_on "," (MockDatabase.words row))
                    (MockDatabase.context_rules row)
                    (MockDatabase.examples row))
      MockDatabase.sample_homophones.

(** What holds of every correction the loop of [correct_text] records:
    it is of kind spelling, its replacement is not empty and differs
    case-insensitively from the original, which is one of [words]. *)
Definition sound_correction (words : list string) (c : CorrectionRecord) : Prop :=
  correction_type c = "spelling"
  /\ corrected c <> EmptyString
  /\ PyStr.lower (corrected c) <> PyStr.lower (original c)
  /\ In (original c) words.

(** A fill-mask double that answers by the masked text it is given. *)
Definition positional_pipeline (masked_text : string) (top_k : nat)
  : result (list Prediction) :=
  if masked_text =? "[MASK] wich" then Ok [mk_prediction "which" (9 # 10)]
  else if masked_text =? "wich [MASK]" then Ok [mk_prediction "witch" (9 # 10)]
  else Ok [].

Definition positional_checker : ContextAwareSpellChecker :=
  Fixtures.checker_with positional_pipeline.

End Terms.

(* ================================================================== *)
(** * Properties *)

(* ------------------------------------------------------------------ *)
(** ** The string operations on sample inputs *)

Example lower_mixed_case : PyStr.lower "They'RE" = "they're".
Proof. reflexivity. Qed.

Example split_runs_of_spaces :
  PyStr.split "  This is   a test" = ["This"; "is"; "a"; "test"].
Proof. reflexivity. Qed.

Example split_on_commas :
  PyStr.split_on "," "there,their,they're" = ["there"; "their"; "they're"].
Proof. reflexivity. Qed.

Example replace_every_occurrence :
  PyStr.replace "aXbXXc" "X" "yy" = "ayybyyyyc".
Proof. reflexivity. Qed.

Example replace_without_overlap : PyStr.replace "aaaaa" "aa" "b" = "bba".
Proof. reflexivity. Qed.

Example replace_empty_pattern : PyStr.replace "abc" "" "-" = "-a-b-c-".
Proof. reflexivity. Qed.

Example contains_inside_a_word : PyStr.contains "this one" "is" = true.
Proof. reflexivity. Qed.

Example seeded_group_members :
  map MockDatabase.group_words (MockDatabase.get_homophones Fixtures.seeded_db)
  = [ ["there"; "their"; "they're"]; ["to"; "too"; "two"];
      ["your"; "you're"]; ["its"; "it's"] ].
Proof. reflexivity. Qed.

Example whitespace_nlp_offsets :
  Fixtures.whitespace_nlp "wich sandwich 42"
  = [ Checker.mk_token "wich" 0 true; Checker.mk_token "sandwich" 5 true;
      Checker.mk_token "42" 14 false ].
Proof. reflexivity. Qed.

(** The real context rules keep "Their" even next to "going": the answer
    is the word itself, so nothing is reported. *)
Example their_going_not_reported :
  Checker.detect_errors Fixtures.which_checker "Their going to the store"
  = Ok [].
Proof. reflexivity. Qed.

(* ------------------------------------------------------------------ *)
(** ** The lexicon store *)

Section Seeding.

Import MockDatabase.

Variable R : Type.

Lemma max_id_lower_bound (ids : list Z) (start : Z) :
  (start <= fold_left Z.max ids start)%Z.
Proof.
  revert start; induction ids as [|i ids IH]; intros start; simpl.
  - lia.
  - specialize (IH (Z.max start i)). lia.
Qed.

Lemma max_id_upper_bound (ids : list Z) (start i : Z) :
  In i ids -> (i <= fold_left Z.max ids start)%Z.
Proof.
  revert start; induction ids as [|j ids IH]; intros start Hin; simpl.
  - destruct Hin.
  - destruct Hin as [-> | Hin].
    + pose proof (max_id_lower_bound ids (Z.max start i)). lia.
    + now apply IH.
Qed.

(** The fresh id is above every stored id, so the primary key never
    rejects a row. *)
Lemma next_id_fresh (t : table R) :
  existsb (fun row => Z.eqb (fst row) (next_id t)) (rows t) = false.
Proof.
  destruct (existsb _ _) eqn:E; [|reflexivity].
  apply existsb_exists in E. destruct E as [row [Hin Heq]].
  apply Z.eqb_eq in Heq. unfold next_id in Heq.
  pose proof (max_id_upper_bound (map fst (rows t)) (seq t) (fst row)
                (in_map fst _ _ Hin)).
  lia.
Qed.

Lemma insert_or_ignore_appends (t : table R) (r : R) :
  insert_or_ignore t r = mk_table (rows t ++ [(next_id t, r)])%list (next_id t).
Proof.
  unfold insert_or_ignore. now rewrite next_id_fresh.
Qed.

Lemma executemany_rows (params : list R) (t : table R) :
  map snd (rows (executemany t params)) = (map snd (rows t) ++ params)%list.
Proof.
  unfold executemany. revert t.
  induction params as [|r params IH]; intros t; simpl.
  - now rewrite app_nil_r.
  - rewrite IH, insert_or_ignore_appends. simpl.
    now rewrite map_app, <- app_assoc.
Qed.

End Seeding.

Lemma get_misspellings_rows (db : MockDatabase.db_file) :
  MockDatabase.get_misspellings db
  = map (fun m => (MockDatabase.incorrect_word m, MockDatabase.correct_word m,
                   MockDatabase.frequency m))
        (map snd (MockDatabase.rows (MockDatabase.misspellings db))).
Proof.
  unfold MockDatabase.get_misspellings. now rewrite map_map.
Qed.

Lemma get_misspellings_populate (db : MockDatabase.db_file) :
  MockDatabase.get_misspellings (MockDatabase.populate_sample_data db)
  = (MockDatabase.get_misspellings db
     ++ [ ("recieve", "receive", 5%Z); ("seperate", "separate", 3%Z);
          ("definately", "definitely", 4%Z); ("occured", "occurred", 2%Z);
          ("accomodate", "accommodate", 3%Z) ])%list.
Proof.
  rewrite !get_misspellings_rows.
  unfold MockDatabase.populate_sample_data.
  cbn [MockDatabase.misspellings].
  rewrite executemany_rows, map_app. reflexivity.
Qed.

(** C4 (the code departs from the claim).  Every run of the seed operation
    appends the five sample misspellings again: [INSERT OR IGNORE] has no
    uniqueness constraint on [incorrect_word] to trip over.  From an empty
    database path, [n] runs leave [5 * n] rows; in particular one run
    leaves 5 rows and a second run leaves 10, with "recieve" stored twice. *)
Theorem seed_not_idempotent :
  (forall db,
      length (MockDatabase.get_misspellings (MockDatabase.populate_sample_data db))
      = length (MockDatabase.get_misspellings db) + 5)
  /\ (forall n,
         length (MockDatabase.get_misspellings
                   (MockDatabase.reseed n (MockDatabase.init_database None)))
         = 5 * n)
  /\ length (MockDatabase.get_misspellings (MockDatabase.new None)) = 5
  /\ length (MockDatabase.get_misspellings
               (MockDatabase.new (Some (MockDatabase.new None)))) = 10
  /\ count_occ string_dec
       (map (fun m => fst (fst m))
          (MockDatabase.get_misspellings
             (MockDatabase.new (Some (MockDatabase.new None)))))
       "recieve" = 2.
Proof.
  assert (Hstep : forall db,
             length (MockDatabase.get_misspellings
                       (MockDatabase.populate_sample_data db))
             = length (MockDatabase.get_misspellings db) + 5).
  { intros db. rewrite get_misspellings_populate, length_app. reflexivity. }
  split; [exact Hstep|].
  split.
  - induction n as [|n IH].
    + reflexivity.
    + cbn [MockDatabase.reseed]. rewrite Hstep, IH. lia.
  - repeat split; vm_compute; reflexivity.
Qed.

(* ------------------------------------------------------------------ *)
(** ** Confidence aggregation *)

Section Confidence.

Import Checker.










End Confidence.


(* ------------------------------------------------------------------ *)
(** ** Whitespace splitting and the text statistics *)

Section Splitting.

Lemma split_starts_word (s : string) :
  PyStr.starts_word s = true -> PyStr.split s <> [].
Proof.
  destruct s as [|c s]; simpl; [discriminate|].
  intros H. apply negb_true_iff in H. rewrite H.
  destruct (PyStr.starts_word s); [destruct (PyStr.split s)|]; discriminate.
Qed.

Lemma count_tokens_in_word (s : string) :
  Spec.count_tokens true s + (if PyStr.starts_word s then 1 else 0)
  = Spec.count_tokens false s.
Proof.
  destruct s as [|c s]; simpl; [reflexivity|].
  destruct (PyStr.isspace c); simpl; lia.
Qed.

Lemma split_length (s : string) :
  length (PyStr.split s) = Spec.count_tokens false s.
Proof.
  induction s as [|c s IH]; simpl; [reflexivity|].
  destruct (PyStr.isspace c); [exact IH|].
  pose proof (count_tokens_in_word s) as Hc.
  destruct (PyStr.starts_word s) eqn:Hs.
  - pose proof (split_starts_word s Hs) as Hne.
    destruct (PyStr.split s) as [|w ws]; [contradiction|].
    simpl in *. lia.
  - simpl. lia.
Qed.

(** Every token [split] returns is non-empty and free of whitespace. *)
Lemma split_tokens (s : string) :
  Forall (fun w => w <> EmptyString /\ Spec.no_space w = true) (PyStr.split s).
Proof.
  induction s as [|c s IH]; simpl; [constructor|].
  destruct (PyStr.isspace c) eqn:Hc; [exact IH|].
  destruct (PyStr.starts_word s).
  - destruct (PyStr.split s) as [|w ws].
    + constructor; [|constructor]. simpl. rewrite Hc. split; [discriminate|reflexivity].
    + inversion IH as [|? ? [_ Hw] Hws]; subst.
      constructor; [|assumption]. simpl. rewrite Hc, Hw.
      split; [discriminate|reflexivity].
  - constructor; [|assumption]. simpl. rewrite Hc.
    split; [discriminate|reflexivity].
Qed.

Lemma split_single (w : string) :
  w <> EmptyString -> Spec.no_space w = true -> PyStr.split w = [w].
Proof.
  induction w as [|c w IH]; intros Hne Hw; [contradiction|].
  simpl in Hw. apply andb_true_iff in Hw. destruct Hw as [Hc Hw].
  apply negb_true_iff in Hc. simpl. rewrite Hc.
  destruct w as [|d w]; [reflexivity|].
  assert (Hd : PyStr.starts_word (String d w) = true).
  { simpl in Hw. apply andb_true_iff in Hw. now destruct Hw. }
  rewrite Hd, IH; [reflexivity|discriminate|assumption].
Qed.

Lemma split_token_space (w rest : string) :
  w <> EmptyString -> Spec.no_space w = true ->
  PyStr.split (w ++ String " " rest) = w :: PyStr.split rest.
Proof.
  induction w as [|c w IH]; intros Hne Hw; [contradiction|].
  simpl in Hw. apply andb_true_iff in Hw. destruct Hw as [Hc Hw].
  apply negb_true_iff in Hc.
  cbn [append PyStr.split]. rewrite Hc.
  destruct w as [|d w].
  - reflexivity.
  - assert (Hd : PyStr.starts_word (String d w ++ String " " rest) = true).
    { simpl in Hw. apply andb_true_iff in Hw. now destruct Hw. }
    rewrite Hd, IH; [reflexivity|discriminate|assumption].
Qed.

(** On a text made of tokens joined by single spaces, [split] gives the
    tokens back. *)
Lemma split_join (ws : list string) :
  Forall (fun w => w <> EmptyString /\ Spec.no_space w = true) ws ->
  PyStr.split (PyStr.join " " ws) = ws.
Proof.
  induction ws as [|w ws IH]; intros H; [reflexivity|].
  inversion H as [|? ? [Hne Hw] Hws]; subst.
  destruct ws as [|w' ws].
  - simpl. now apply split_single.
  - change (PyStr.join " " (w :: w' :: ws))
      with (w ++ String " " (PyStr.join " " (w' :: ws))).
    rewrite split_token_space by assumption.
    now rewrite IH.
Qed.

End Splitting.

(** C7.  [get_text_statistics] reports as word count the number of
    whitespace-delimited tokens of the text and as character count the
    length of the text; for "This is a test sentence." the word count is 5
    and the character count 24. *)
Theorem text_statistics_counts :
  forall self text,
    Checker.word_count (Checker.get_text_statistics self text)
    = Spec.count_tokens false text
    /\ Checker.character_count (Checker.get_text_statistics self text)
       = String.length text
    /\ Checker.word_count
         (Checker.get_text_statistics self "This is a test sentence.") = 5
    /\ Checker.character_count
         (Checker.get_text_statistics self "This is a test sentence.") = 24.
Proof.
  intros self text. cbn [Checker.get_text_statistics Checker.word_count
                         Checker.character_count].
  rewrite split_length. repeat split.
Qed.

(* ------------------------------------------------------------------ *)
(** ** Substring replacement *)

Section Replacement.

Variables old new : string.

Lemma prefix_append (s rest : string) : String.prefix s (s ++ rest) = true.
Proof.
  induction s as [|c s IH]; simpl.
  - now destruct rest.
  - destruct (ascii_dec c c); [exact IH|contradiction].
Qed.

Lemma replace_scan_skip (o rest : string) :
  PyStr.replace_scan (String.length o) (o ++ rest) old new
  = PyStr.replace_scan 0 rest old new.
Proof.
  induction o as [|c o IH]; simpl.
  - now destruct rest.
  - exact IH.
Qed.

Lemma find_cons (c : ascii) (s : string) :
  PyStr.find (String c s) old
  = if String.prefix old (String c s) then Some 0
    else option_map S (PyStr.find s old).
Proof. reflexivity. Qed.

Hypothesis old_not_empty : old <> EmptyString.

Lemma old_uncons : exists c o, old = String c o.
Proof.
  destruct old as [|c o]; [contradiction|]. now exists c, o.
Qed.

Lemma replace_not_empty (s : string) :
  PyStr.replace s old new = PyStr.replace_scan 0 s old new.
Proof.
  unfold PyStr.replace. destruct old_uncons as (c & o & E). now rewrite E.
Qed.

Lemma replace_at_occurrence (rest : string) :
  PyStr.replace (old ++ rest) old new = new ++ PyStr.replace rest old new.
Proof.
  rewrite !replace_not_empty.
  destruct old_uncons as (c & o & E).
  assert (Hs : old ++ rest = String c (o ++ rest)) by (now rewrite E).
  assert (Hl : String.length old - 1 = String.length o)
    by (rewrite E; cbn [String.length]; lia).
  rewrite Hs. cbn [PyStr.replace_scan]. rewrite <- Hs, prefix_append, Hl.
  now rewrite replace_scan_skip.
Qed.

Lemma replace_copy (c : ascii) (s : string) :
  String.prefix old (String c s) = false ->
  PyStr.replace (String c s) old new = String c (PyStr.replace s old new).
Proof.
  intros H. rewrite !replace_not_empty.
  cbn [PyStr.replace_scan]. now rewrite H.
Qed.

(** Without an occurrence of [old] the text is returned as it is. *)
Lemma replace_absent (s : string) :
  PyStr.find s old = None -> PyStr.replace s old new = s.
Proof.
  induction s as [|c s IH]; intros H.
  - now rewrite replace_not_empty.
  - rewrite find_cons in H.
    destruct (String.prefix old (String c s)) eqn:Hp; [discriminate|].
    rewrite replace_copy by assumption. f_equal. apply IH.
    now destruct (PyStr.find s old).
Qed.

(** With the first occurrence of [old] right after [pre], the text before
    it is copied, the occurrence becomes [new], and the replacement goes on
    in the text after the occurrence. *)
Lemma replace_first_then_rest (pre post : string) :
  PyStr.find (pre ++ old ++ post) old = Some (String.length pre) ->
  PyStr.replace (pre ++ old ++ post) old new
  = pre ++ new ++ PyStr.replace post old new.
Proof.
  induction pre as [|c pre IH]; intros H.
  - cbn [append]. apply replace_at_occurrence.
  - cbn [append String.length] in *.
    rewrite find_cons in H.
    destruct (String.prefix old (String c (pre ++ old ++ post))) eqn:Hp;
      [discriminate|].
    rewrite replace_copy by assumption. f_equal. apply IH.
    destruct (PyStr.find (pre ++ old ++ post) old); simpl in H; congruence.
Qed.

End Replacement.

(* ------------------------------------------------------------------ *)
(** ** Applying a correction *)

Lemma correct_step_accepted (self : Checker.ContextAwareSpellChecker)
    (text working_text : string) (corrections : list Checker.CorrectionRecord)
    (error : Checker.DetectedError) (suggestion : string) :
  Spec.accepted self text error = Some suggestion ->
  Checker.correct_step self text (working_text, corrections) error
  = Ok (PyStr.replace working_text (Checker.err_word error) suggestion,
        (corrections
         ++ [Checker.mk_correction (Checker.err_word error) suggestion
               (Checker.err_type error)])%list).
Proof.
  unfold Spec.accepted, Checker.correct_step. intros H.
  destruct (Checker.err_type error =? "spelling") eqn:Es.
  - apply String.eqb_eq in Es. rewrite Es.
    destruct (Checker._bert_correct_spelling self text _ _) as [s|];
      [|discriminate].
    destruct (PyStr.truthy s); [|discriminate].
    now injection H as ->.
  - destruct (Checker.err_type error =? "homophone") eqn:Eh; [|discriminate].
    apply String.eqb_eq in Eh. rewrite Eh.
    destruct (Checker.err_suggestions error) as [|s rest]; [discriminate|].
    simpl in H. now injection H as ->.
Qed.

Lemma correct_step_not_accepted (self : Checker.ContextAwareSpellChecker)
    (text : string) (st : Checker.working) (error : Checker.DetectedError) :
  Checker.err_type error = "spelling" ->
  Spec.accepted self text error = None ->
  Checker.correct_step self text st error = Ok st.
Proof.
  unfold Spec.accepted, Checker.correct_step. intros Es H.
  destruct st as [working_text corrections]. rewrite Es in *. simpl in *.
  destruct (Checker._bert_correct_spelling self text _ _) as [s|];
    [|reflexivity].
  now destruct (PyStr.truthy s).
Qed.

(** C1 (as amended).  For a detected error with an accepted correction,
    [correct_text] replaces every occurrence of the original word in the
    working text, not only the first: the text before the first occurrence
    is kept, the occurrence becomes the suggestion, and the same
    replacement is carried out on all of the text after it.  The correction
    is then recorded. *)
Theorem correction_replaces_all_occurrences :
  forall self text corrections error suggestion pre post,
    Spec.accepted self text error = Some suggestion ->
    Checker.err_word error <> EmptyString ->
    PyStr.find (pre ++ Checker.err_word error ++ post) (Checker.err_word error)
    = Some (String.length pre) ->
    Checker.correct_step self text
      (pre ++ Checker.err_word error ++ post, corrections) error
    = Ok (pre ++ suggestion
              ++ PyStr.replace post (Checker.err_word error) suggestion,
          (corrections
           ++ [Checker.mk_correction (Checker.err_word error) suggestion
                 (Checker.err_type error)])%list).
Proof.
  intros self text corrections error suggestion pre post Hacc Hne Hfind.
  rewrite (correct_step_accepted _ _ _ _ _ _ Hacc).
  now rewrite replace_first_then_rest.
Qed.

Lemma correction_replaces_all_occurrences_witness :
  Checker.correct_step Fixtures.which_checker "wich sandwich"
    ("wich sandwich", []) (Checker.mk_error "wich" 0 "spelling" [] None)
  = Ok ("which sandwhich", [Checker.mk_correction "wich" "which" "spelling"]).
Proof.
  apply (correction_replaces_all_occurrences Fixtures.which_checker
           "wich sandwich" [] (Checker.mk_error "wich" 0 "spelling" [] None)
           "which" "" " sandwich").
  - reflexivity.
  - discriminate.
  - reflexivity.
Defined.

(** C1 (counterexample to the claim as stated).  In "wich sandwich" one
    error is detected, the word "wich"; its correction "which" also
    rewrites the later occurrence inside "sandwich", where a replacement of
    the first occurrence only would leave "which sandwich". *)
Lemma first_occurrence_only_refuted :
  Checker.correct_text Fixtures.which_checker "wich sandwich"
  = Ok (Checker.mk_result "wich sandwich" "which sandwhich"
          [Checker.mk_error "wich" 0 "spelling" [] None] 0.9%Q "mixed"
          [Checker.mk_correction "wich" "which" "spelling"])
  /\ Spec.accepted Fixtures.which_checker "wich sandwich"
       (Checker.mk_error "wich" 0 "spelling" [] None) = Some "which"
  /\ Spec.replace_first "wich sandwich" "wich" "which" = "which sandwich"
  /\ "which sandwhich" <> Spec.replace_first "wich sandwich" "wich" "which".
Proof.
  repeat split; try (vm_compute; reflexivity).
  vm_compute. discriminate.
Qed.

(* ------------------------------------------------------------------ *)
(** ** The context window *)

Section ContextWindow.

Import Checker.

Lemma index_first (pre post : list string) (target : string) :
  ~ In target pre ->
  PyStr.index (pre ++ target :: post) target = Some (length pre).
Proof.
  induction pre as [|w pre IH]; intros Hnot; simpl.
  - now rewrite String.eqb_refl.
  - destruct (String.eqb_spec w target) as [->|Hne].
    + exfalso. apply Hnot. now left.
    + rewrite IH; [reflexivity|]. intros Hin. apply Hnot. now right.
Qed.


Lemma firstn_clipped {A : Type} (n : nat) (xs : list A) :
  firstn (Nat.min (length xs) n) xs = firstn n xs.
Proof.
  destruct (Nat.le_ge_cases n (length xs)) as [H|H].
  - now rewrite Nat.min_r.
  - rewrite Nat.min_l by assumption.
    now rewrite !firstn_all2 by lia.
Qed.

(** The slice the window takes around position [length pre]. *)
Lemma slice_around (pre post : list string) (target : string) (n : nat) :
  PyStr.slice (pre ++ target :: post)
    (Z.to_nat (Z.max 0 (Z.of_nat (length pre) - Z.of_nat n)))
    (Nat.min (length (pre ++ target :: post)) (length pre + n + 1))
  = (Spec.lastn n pre ++ target :: firstn n post)%list.
Proof.
  unfold PyStr.slice, Spec.lastn.
  replace (Z.to_nat (Z.max 0 (Z.of_nat (length pre) - Z.of_nat n)))
    with (length pre - n) by lia.
  rewrite skipn_app.
  replace (length pre - n - length pre) with 0 by lia.
  cbn [skipn].
  set (before := skipn (length pre - n) pre).
  assert (Hb : length before = length pre - (length pre - n))
    by (unfold before; apply length_skipn).
  rewrite length_app. cbn [length].
  replace (Nat.min (length pre + S (length post)) (length pre + n + 1)
           - (length pre - n))
    with (length before + S (Nat.min (length post) n)) by lia.
  rewrite firstn_app_2. cbn [firstn].
  now rewrite firstn_clipped.
Qed.

Lemma context_window_located (doc : list Token) (target : string)
    (pre post : list string) (n : nat) :
  map token_text doc = (pre ++ target :: post)%list ->
  ~ In target pre ->
  _get_context_window doc target n
  = PyStr.join " " (Spec.lastn n pre ++ target :: firstn n post).
Proof.
  intros Hdoc Hnot. unfold _get_context_window.
  rewrite Hdoc, index_first by assumption.
  now rewrite slice_around.
Qed.


End ContextWindow.

(* ------------------------------------------------------------------ *)
(** ** Homophone resolution *)

Section Homophones.

Import Checker.

(** The context rules answer with the lower-case form of the word they
    were asked about, or not at all. *)
Lemma analyze_own_form (word context : string) (g : MockDatabase.HomophoneGroup) :
  _analyze_homophone_context word context g = None
  \/ (_analyze_homophone_context word context g = Some (PyStr.lower word)
      /\ PyStr.lower (PyStr.lower word) = PyStr.lower word).
Proof.
  unfold _analyze_homophone_context.
  destruct (String.eqb_spec (PyStr.lower word) "there") as [E|_].
  { destruct (any_in _ _); [right|now left]. rewrite E. now split. }
  destruct (String.eqb_spec (PyStr.lower word) "their") as [E|_].
  { destruct (any_in _ _); [right|now left]. rewrite E. now split. }
  destruct (String.eqb_spec (PyStr.lower word) "they're") as [E|_].
  { destruct (any_in _ _); [right|now left]. rewrite E. now split. }
  now left.
Qed.


Lemma check_groups_silent (word : string) (doc : list Token)
    (groups : list MockDatabase.HomophoneGroup) :
  check_groups _analyze_homophone_context word doc groups = Ok None.
Proof.
  induction groups as [|g rest IH]; simpl; [reflexivity|].
  destruct (PyStr.mem _ _); [|exact IH].
  destruct (analyze_own_form word (_get_context_window doc word 3) g)
    as [-> | [-> Hlow]]; [exact IH|].
  rewrite Hlow, String.eqb_refl, andb_false_r. exact IH.
Qed.

Lemma check_homophones_silent (self : ContextAwareSpellChecker)
    (word : string) (doc : list Token) :
  _check_homophones self word doc = Ok None.
Proof.
  apply check_groups_silent.
Qed.

Lemma find_first {A : Type} (f : A -> bool) (xs : list A) (x : A) :
  List.find f xs = Some x ->
  exists pre post,
    xs = (pre ++ x :: post)%list /\ f x = true
    /\ Forall (fun y => f y = false) pre.
Proof.
  induction xs as [|y xs IH]; simpl; [discriminate|].
  destruct (f y) eqn:Hy.
  - intros H. injection H as <-. now exists [], xs.
  - intros H. destruct (IH H) as (pre & post & -> & Hx & Hpre).
    exists (y :: pre), post. repeat split; [assumption|now constructor].
Qed.

Lemma check_groups_position
    (analyze : string -> string -> MockDatabase.HomophoneGroup -> option string)
    (word : string) (doc : list Token)
    (groups : list MockDatabase.HomophoneGroup) (e : DetectedError) :
  check_groups analyze word doc groups = Ok (Some e) ->
  exists pre token post,
    doc = (pre ++ token :: post)%list
    /\ token_text token = word
    /\ Forall (fun t => token_text t <> word) pre
    /\ err_position e = token_idx token
    /\ err_word e = word
    /\ err_type e = "homophone".
Proof.
  induction groups as [|g rest IH]; simpl; [discriminate|].
  destruct (PyStr.mem _ _); [|exact IH].
  destruct (analyze word _ g) as [correct_word|]; [|exact IH].
  destruct (PyStr.truthy correct_word
            && negb (PyStr.lower correct_word =? PyStr.lower word));
    [|exact IH].
  unfold first_token_idx.
  destruct (List.find _ doc) as [token|] eqn:Hfind; [|discriminate].
  cbn [bind]. intros H. injection H as <-.
  destruct (find_first _ _ _ Hfind) as (pre & post & Hdoc & Htok & Hpre).
  exists pre, token, post. apply String.eqb_eq in Htok.
  repeat split; try assumption.
  eapply Forall_impl; [|exact Hpre].
  intros t Ht. now apply String.eqb_neq.
Qed.

End Homophones.

(* ------------------------------------------------------------------ *)
(** ** The detection and correction pipeline *)

Section Pipeline.

Import Checker.

Variable self : ContextAwareSpellChecker.

Lemma for_each_app {A S : Type} (body : S -> A -> result S)
    (xs ys : list A) (st : S) :
  for_each body (xs ++ ys)%list st
  = (st' <- for_each body xs st ;; for_each body ys st').
Proof.
  revert st; induction xs as [|x xs IH]; intros st; simpl; [reflexivity|].
  destruct (body st x) as [st'|e]; simpl; [apply IH|reflexivity].
Qed.

Lemma detect_token_spelling (doc : list Token) (errors : list DetectedError)
    (token : Token) :
  detect_token self doc errors token
  = Ok (errors ++ Spec.spelling_errors self [token])%list.
Proof.
  unfold detect_token, Spec.spelling_errors. cbn [flat_map].
  rewrite check_homophones_silent. cbn [bind].
  destruct (token_is_alpha token); cbn [andb].
  - destruct (negb _); now rewrite app_nil_r.
  - now rewrite !app_nil_r.
Qed.

Lemma spelling_errors_cons (token : Token) (tokens : list Token) :
  Spec.spelling_errors self (token :: tokens)
  = (Spec.spelling_errors self [token] ++ Spec.spelling_errors self tokens)%list.
Proof.
  unfold Spec.spelling_errors. cbn [flat_map]. now rewrite app_nil_r.
Qed.

Lemma detect_loop (doc tokens : list Token) (errors : list DetectedError) :
  for_each (detect_token self doc) tokens errors
  = Ok (errors ++ Spec.spelling_errors self tokens)%list.
Proof.
  revert errors; induction tokens as [|token tokens IH]; intros errors.
  - simpl. now rewrite app_nil_r.
  - cbn [for_each]. rewrite detect_token_spelling. cbn [bind].
    rewrite IH, <- app_assoc, <- spelling_errors_cons. reflexivity.
Qed.

(** [detect_errors] never raises and reports spelling errors only. *)
Lemma detect_errors_spelling (text : string) :
  detect_errors self text = Ok (Spec.spelling_errors self (nlp self text)).
Proof.
  unfold detect_errors. now rewrite detect_loop.
Qed.

(** Nothing is reported exactly when the dictionary accepts every
    alphabetic token. *)
Lemma detect_errors_none (text : string) :
  detect_errors self text = Ok []
  <-> (forall token,
          In token (nlp self text) -> token_is_alpha token = true ->
          enchant_dict_check self (PyStr.lower (token_text token)) = true).
Proof.
  rewrite detect_errors_spelling. unfold Spec.spelling_errors.
  induction (nlp self text) as [|t doc IH]; cbn [flat_map].
  - split; [intros _ token []|reflexivity].
  - split.
    + intros H. injection H as H. apply app_eq_nil in H. destruct H as [Ht Hd].
      intros token [<-|Hin] Ha.
      * rewrite Ha in Ht. cbn [andb] in Ht.
        destruct (enchant_dict_check self _); [reflexivity|discriminate].
      * apply IH; [now rewrite Hd|assumption|assumption].
    + intros H.
      assert (Hd : Ok (flat_map
                         (fun token =>
                            if token_is_alpha token
                               && negb (enchant_dict_check self
                                          (PyStr.lower (token_text token)))
                            then [mk_error (token_text token) (token_idx token)
                                    "spelling"
                                    (enchant_dict_suggest self
                                       (PyStr.lower (token_text token))) None]
                            else []) doc) = Ok (@nil DetectedError)).
      { apply IH. intros token Hin. apply H. now right. }
      injection Hd as ->.
      destruct (token_is_alpha t) eqn:Ha; cbn [andb]; [|reflexivity].
      rewrite (H t (or_introl eq_refl) Ha). reflexivity.
Qed.

Lemma spelling_errors_type (doc : list Token) :
  Forall (fun e => err_type e = "spelling") (Spec.spelling_errors self doc).
Proof.
  unfold Spec.spelling_errors.
  induction doc as [|token doc IH]; cbn [flat_map]; [constructor|].
  apply Forall_app. split; [|exact IH].
  destruct (_ && _); repeat constructor.
Qed.

Lemma spelling_errors_word (doc : list Token) :
  Forall (fun e => exists token,
              In token doc /\ token_is_alpha token = true
              /\ err_word e = token_text token
              /\ err_position e = token_idx token
              /\ enchant_dict_check self (PyStr.lower (token_text token)) = false)
         (Spec.spelling_errors self doc).
Proof.
  unfold Spec.spelling_errors. apply Forall_forall. intros e He.
  apply in_flat_map in He. destruct He as (token & Hin & He).
  destruct (token_is_alpha token) eqn:Ha; cbn [andb] in He; [|destruct He].
  destruct (enchant_dict_check self _) eqn:Hc; cbn [negb] in He; [destruct He|].
  destruct He as [<-|[]]. exists token. now repeat split.
Qed.

Lemma correct_step_spelling (text : string) (st : working)
    (error : DetectedError) :
  err_type error = "spelling" ->
  exists st',
    correct_step self text st error = Ok st'
    /\ (Forall (fun c => correction_type c = "spelling") (snd st) ->
        Forall (fun c => correction_type c = "spelling") (snd st')).
Proof.
  intros Es. destruct st as [working_text corrections].
  unfold correct_step. rewrite Es. cbn [String.eqb Ascii.eqb Bool.eqb andb].
  change ("spelling" =? "spelling") with true. cbv iota.
  destruct (_bert_correct_spelling self text _ _) as [s|];
    [destruct (PyStr.truthy s)|]; eexists; split; try reflexivity;
    try (intros H; exact H).
  cbn [snd]. intros H. apply Forall_app. split; [exact H|].
  repeat constructor.
Qed.

Lemma apply_loop_spelling (text : string) (errors : list DetectedError)
    (st : working) :
  Forall (fun e => err_type e = "spelling") errors ->
  exists st',
    for_each (correct_step self text) errors st = Ok st'
    /\ (Forall (fun c => correction_type c = "spelling") (snd st) ->
        Forall (fun c => correction_type c = "spelling") (snd st')).
Proof.
  revert st; induction errors as [|e errors IH]; intros st He.
  - exists st. now split.
  - inversion He as [|? ? Hhd Htl]; subst.
    destruct (correct_step_spelling text st e Hhd) as (st1 & H1 & P1).
    destruct (IH st1 Htl) as (st2 & H2 & P2).
    exists st2. cbn [for_each]. rewrite H1. cbn [bind]. split; [exact H2|].
    intros H. apply P2, P1, H.
Qed.

(** [correct_text] never raises: it returns a result whose detected errors
    and recorded corrections are all of kind spelling. *)
Lemma correct_text_total (text : string) :
  exists st,
    apply_corrections self text (Spec.spelling_errors self (nlp self text))
    = Ok st
    /\ correct_text self text
       = Ok (mk_result text (fst st)
               (Spec.spelling_errors self (nlp self text))
               (_calculate_confidence (snd st)) "mixed" (snd st))
    /\ Forall (fun c => correction_type c = "spelling") (snd st).
Proof.
  destruct (apply_loop_spelling text _ (text, [])
              (spelling_errors_type (nlp self text))) as (st & Hst & P).
  exists st. unfold correct_text, apply_corrections.
  rewrite detect_errors_spelling. cbn [bind].
  unfold apply_corrections. rewrite Hst. cbn [bind].
  repeat split. apply P. constructor.
Qed.

End Pipeline.

(* ------------------------------------------------------------------ *)
(** ** The external corrector *)

Section Corrector.

Import Checker.

Lemma filter_head {A : Type} (f : A -> bool) (xs : list A) :
  match filter f xs with
  | p :: _ =>
      exists rejected rest,
        xs = (rejected ++ p :: rest)%list
        /\ Forall (fun q => f q = false) rejected /\ f p = true
  | [] => Forall (fun q => f q = false) xs
  end.
Proof.
  induction xs as [|x xs IH]; simpl; [constructor|].
  destruct (f x) eqn:Hx.
  - exists [], xs. now repeat split.
  - destruct (filter f xs) as [|p kept].
    + now constructor.
    + destruct IH as (rejected & rest & -> & Hrej & Hp).
      exists (x :: rejected), rest. repeat split; [now constructor|assumption].
Qed.

Lemma filter_none {A : Type} (f : A -> bool) (xs : list A) :
  Forall (fun q => f q = false) xs -> filter f xs = [].
Proof.
  induction 1 as [|x xs Hx _ IH]; simpl; [reflexivity|].
  now rewrite Hx.
Qed.

Lemma differs_false (a b : string) :
  negb (PyStr.lower a =? PyStr.lower b) = false -> PyStr.lower a = PyStr.lower b.
Proof.
  intros H. apply negb_false_iff in H. now apply String.eqb_eq.
Qed.

Lemma differs_true (a b : string) :
  negb (PyStr.lower a =? PyStr.lower b) = true -> PyStr.lower a <> PyStr.lower b.
Proof.
  intros H. apply negb_true_iff in H. now apply String.eqb_neq.
Qed.

End Corrector.

(** C3.  The external corrector drops every candidate that equals the
    flagged word case-insensitively and answers with the first candidate
    left; it answers nothing when no candidate is left or when the model
    call raises.  A raise never leaves [correct_text], which always returns
    a result, and a spelling error without an answer leaves the working
    state as it is while the loop goes on with the remaining errors. *)
Theorem bert_correction_filters_and_survives :
  forall self text word position,
    let masked_text :=
      PyStr.take position text ++ "[MASK]"
      ++ PyStr.drop (position + String.length word) text in
    match Checker._bert_correct_spelling self text word position with
    | Some candidate =>
        exists rejected p rest,
          Checker.fill_mask_pipeline self masked_text 5
          = Ok (rejected ++ p :: rest)%list
          /\ Checker.token_str p = candidate
          /\ Forall (fun q => PyStr.lower (Checker.token_str q) = PyStr.lower word)
                    rejected
          /\ PyStr.lower candidate <> PyStr.lower word
    | None =>
        (exists e, Checker.fill_mask_pipeline self masked_text 5 = Raise e)
        \/ (exists predictions,
               Checker.fill_mask_pipeline self masked_text 5 = Ok predictions
               /\ Forall (fun q => PyStr.lower (Checker.token_str q)
                                   = PyStr.lower word) predictions)
    end
    /\ (forall e,
           Checker.fill_mask_pipeline self masked_text 5 = Raise e ->
           Checker._bert_correct_spelling self text word position = None)
    /\ (forall predictions,
           Checker.fill_mask_pipeline self masked_text 5 = Ok predictions ->
           Forall (fun q => PyStr.lower (Checker.token_str q) = PyStr.lower word)
                  predictions ->
           Checker._bert_correct_spelling self text word position = None)
    /\ (exists r, Checker.correct_text self text = Ok r)
    /\ (forall error rest st,
           Checker.err_type error = "spelling" ->
           Checker._bert_correct_spelling self text (Checker.err_word error)
             (Checker.err_position error) = None ->
           for_each (Checker.correct_step self text) (error :: rest) st
           = for_each (Checker.correct_step self text) rest st).
Proof.
  intros self text word position masked_text. repeat split.
  - unfold Checker._bert_correct_spelling. fold masked_text.
    destruct (Checker.fill_mask_pipeline self masked_text 5)
      as [predictions|e]; [|left; now exists e].
    pose proof (filter_head
                  (fun p => negb (PyStr.lower (Checker.token_str p)
                                  =? PyStr.lower word)) predictions) as H.
    cbv zeta.
    destruct (filter _ predictions) as [|p kept].
    + right. exists predictions. split; [reflexivity|].
      eapply Forall_impl; [|exact H]. intros q. apply differs_false.
    + destruct H as (rejected & rest & -> & Hrej & Hp).
      exists rejected, p, rest. repeat split.
      * eapply Forall_impl; [|exact Hrej]. intros q. apply differs_false.
      * now apply differs_true.
  - intros e He. unfold Checker._bert_correct_spelling. fold masked_text.
    now rewrite He.
  - intros predictions Hp Hall.
    unfold Checker._bert_correct_spelling. fold masked_text. rewrite Hp.
    cbv zeta. rewrite filter_none; [reflexivity|].
    eapply Forall_impl; [|exact Hall].
    intros q Hq. cbv beta. now rewrite Hq, String.eqb_refl.
  - destruct (correct_text_total self text) as (st & _ & Hr & _).
    eexists. exact Hr.
  - intros error rest st Es Hnone. cbn [for_each].
    rewrite correct_step_not_accepted; [reflexivity|assumption|].
    unfold Spec.accepted. now rewrite Es, Hnone.
Qed.

Lemma bert_correction_filters_and_survives_witness :
  for_each (Checker.correct_step Fixtures.offline_checker "wich cat")
    [Checker.mk_error "wich" 0 "spelling" [] None] ("wich cat", [])
  = Ok ("wich cat", []).
Proof.
  apply (proj2 (proj2 (proj2 (proj2 (bert_correction_filters_and_survives
                         Fixtures.offline_checker "wich cat" "wich" 0))))
           (Checker.mk_error "wich" 0 "spelling" [] None) [] ("wich cat", [])).
  - reflexivity.
  - reflexivity.
Defined.

(** C5.  When no token of the text is flagged, [correct_text] returns the
    text unchanged with confidence 1.0 (and no recorded correction). *)
Theorem unflagged_text_unchanged :
  forall self text,
    Checker.detect_errors self text = Ok [] ->
    Checker.correct_text self text
    = Ok (Checker.mk_result text text [] 1.0%Q "mixed" []).
Proof.
  intros self text H. unfold Checker.correct_text. now rewrite H.
Qed.

Lemma unflagged_text_unchanged_witness :
  Checker.detect_errors Fixtures.which_checker "this is a cat" = Ok []
  /\ Checker.correct_text Fixtures.which_checker "this is a cat"
     = Ok (Checker.mk_result "this is a cat" "this is a cat" [] 1.0%Q "mixed" []).
Proof.
  split; [reflexivity|].
  exact (unflagged_text_unchanged Fixtures.which_checker "this is a cat" eq_refl).
Defined.



(** C8.  The context rules answer with the word they were asked about (in
    lower case) or with nothing; the answer never differs
    case-insensitively from the word, so [_check_homophones] never reports
    an error, [detect_errors] never emits an error of kind homophone and
    [correct_text] never records a correction of kind homophone. *)
Theorem homophone_never_emitted :
  (forall word context g,
      Checker._analyze_homophone_context word context g = None
      \/ (Checker._analyze_homophone_context word context g
          = Some (PyStr.lower word)
          /\ PyStr.lower (PyStr.lower word) = PyStr.lower word))
  /\ (forall self word doc, Checker._check_homophones self word doc = Ok None)
  /\ (forall self text,
         exists errors,
           Checker.detect_errors self text = Ok errors
           /\ Forall (fun e => Checker.err_type e <> "homophone") errors)
  /\ (forall self text,
         exists r,
           Checker.correct_text self text = Ok r
           /\ Forall (fun e => Checker.err_type e <> "homophone")
                     (Checker.suggestions r)
           /\ Forall (fun c => Checker.correction_type c <> "homophone")
                     (Checker.corrections_made r)).
Proof.
  assert (Herr : forall self doc,
             Forall (fun e => Checker.err_type e <> "homophone")
                    (Spec.spelling_errors self doc)).
  { intros self doc. eapply Forall_impl; [|apply spelling_errors_type].
    intros e He. rewrite He. discriminate. }
  split; [exact analyze_own_form|].
  split; [exact check_homophones_silent|].
  split.
  - intros self text. eexists. split; [apply detect_errors_spelling|apply Herr].
  - intros self text.
    destruct (correct_text_total self text) as (st & _ & Hr & Hc).
    eexists. split; [exact Hr|]. cbn [Checker.suggestions Checker.corrections_made].
    split; [apply Herr|].
    eapply Forall_impl; [|exact Hc]. intros c Hc'. rewrite Hc'. discriminate.
Qed.

(** C9.  Whatever context analysis is plugged in, when
    [_check_homophones] reports an error for a word, the recorded position
    is the offset of the first token of the document whose text equals the
    word exactly: no earlier token has that text, whichever occurrence was
    being checked. *)
Theorem homophone_position_first_token :
  forall analyze self word doc e,
    Checker._check_homophones_with analyze self word doc = Ok (Some e) ->
    exists pre token post,
      doc = (pre ++ token :: post)%list
      /\ Checker.token_text token = word
      /\ Forall (fun t => Checker.token_text t <> word) pre
      /\ Checker.err_position e = Checker.token_idx token
      /\ Checker.err_word e = word
      /\ Checker.err_type e = "homophone".
Proof.
  intros analyze self word doc e. apply check_groups_position.
Qed.

Lemma homophone_position_first_token_witness :
  Checker._check_homophones_with Fixtures.proposing_analysis
    Fixtures.which_checker "Their"
    (Fixtures.whitespace_nlp "Their car and Their house")
  = Ok (Some (Checker.mk_error "Their" 0 "homophone" ["they're"] (Some 0.8%Q)))
  /\ exists pre token post,
       Fixtures.whitespace_nlp "Their car and Their house"
       = (pre ++ token :: post)%list
       /\ Checker.token_text token = "Their"
       /\ Forall (fun t => Checker.token_text t <> "Their") pre
       /\ 0 = Checker.token_idx token
       /\ "Their" = "Their"
       /\ "homophone" = "homophone".
Proof.
  split; [reflexivity|].
  exact (homophone_position_first_token Fixtures.proposing_analysis
           Fixtures.which_checker "Their"
           (Fixtures.whitespace_nlp "Their car and Their house")
           (Checker.mk_error "Their" 0 "homophone" ["they're"] (Some 0.8%Q))
           eq_refl).
Defined.

(* ================================================================== *)
(** * Further properties of the code *)

(* ------------------------------------------------------------------ *)
(** ** Detection *)

Section Detection.

Import Checker.

Variable self : ContextAwareSpellChecker.

Lemma spelling_errors_filter (doc : list Token) :
  Spec.spelling_errors self doc
  = map (fun token =>
           mk_error (token_text token) (token_idx token) "spelling"
             (enchant_dict_suggest self (PyStr.lower (token_text token))) None)
        (filter (Terms.flagged self) doc).
Proof.
  unfold Spec.spelling_errors, Terms.flagged.
  induction doc as [|token doc IH]; cbn [flat_map filter]; [reflexivity|].
  rewrite IH. now destruct (_ && _).
Qed.

End Detection.

(** X1.  [detect_errors] never raises and returns, in token order, one
    spelling error for each alphabetic token whose lower-case form the
    dictionary rejects: the error carries the token's text as written, its
    offset and the dictionary's suggestions for the lower-case form. *)
Theorem detect_errors_flagged_tokens :
  forall self text,
    Checker.detect_errors self text
    = Ok (map (fun token =>
                 Checker.mk_error (Checker.token_text token)
                   (Checker.token_idx token) "spelling"
                   (Checker.enchant_dict_suggest self
                      (PyStr.lower (Checker.token_text token))) None)
              (filter (Terms.flagged self) (Checker.nlp self text))).
Proof.
  intros self text.
  now rewrite detect_errors_spelling, spelling_errors_filter.
Qed.

(** X2.  [detect_errors] returns the empty list exactly when the dictionary
    accepts the lower-case form of every alphabetic token. *)
Theorem detect_errors_empty_iff_accepted :
  forall self text,
    Checker.detect_errors self text = Ok []
    <-> (forall token,
            In token (Checker.nlp self text) ->
            Checker.token_is_alpha token = true ->
            Checker.enchant_dict_check self
              (PyStr.lower (Checker.token_text token)) = true).
Proof.
  intros self text. apply detect_errors_none.
Qed.

Lemma detect_errors_empty_iff_accepted_witness :
  Checker.detect_errors Fixtures.which_checker "the cat 42" = Ok []
  /\ (forall token,
         In token (Checker.nlp Fixtures.which_checker "the cat 42") ->
         Checker.token_is_alpha token = true ->
         Checker.enchant_dict_check Fixtures.which_checker
           (PyStr.lower (Checker.token_text token)) = true).
Proof.
  split; [reflexivity|].
  apply (proj1 (detect_errors_empty_iff_accepted Fixtures.which_checker
                  "the cat 42")).
  reflexivity.
Defined.

(* ------------------------------------------------------------------ *)
(** ** Masking *)

Section Masking.

Lemma take_prefix (pre rest : string) :
  PyStr.take (String.length pre) (pre ++ rest) = pre.
Proof.
  induction pre as [|c pre IH]; simpl.
  - now destruct rest.
  - now rewrite IH.
Qed.

Lemma drop_prefix (pre rest : string) :
  PyStr.drop (String.length pre) (pre ++ rest) = rest.
Proof.
  induction pre as [|c pre IH]; simpl.
  - now destruct rest.
  - exact IH.
Qed.

Lemma drop_add (n m : nat) (s : string) :
  PyStr.drop (n + m) s = PyStr.drop m (PyStr.drop n s).
Proof.
  revert s; induction n as [|n IH]; intros s.
  - now destruct s.
  - destruct s as [|c s]; cbn [Nat.add PyStr.drop].
    + now destruct m.
    + apply IH.
Qed.

End Masking.

(** X3.  When the flagged word stands in the text right after [pre], the
    corrector sends the model the text with exactly that occurrence
    replaced by "[MASK]" (asking for 5 candidates), and answers with the
    first candidate that differs case-insensitively from the word. *)
Theorem bert_masks_flagged_span :
  forall self pre word post,
    Checker._bert_correct_spelling self (pre ++ word ++ post) word
      (String.length pre)
    = Terms.first_valid word
        (Checker.fill_mask_pipeline self (pre ++ "[MASK]" ++ post) 5).
Proof.
  intros self pre word post.
  unfold Checker._bert_correct_spelling, Terms.first_valid.
  rewrite take_prefix, drop_add, drop_prefix, drop_prefix.
  destruct (Checker.fill_mask_pipeline self _ 5) as [predictions|e];
    [|reflexivity].
  cbv zeta. now destruct (filter _ predictions).
Qed.

(* ------------------------------------------------------------------ *)
(** ** Corrections that change nothing, and a model that is down *)

(** X4.  An accepted correction is recorded even when the working text no
    longer contains the original word (an earlier correction already
    rewrote it): the working text stays as it is and [corrections_made]
    still grows by one entry. *)
Theorem correction_recorded_without_occurrence :
  forall self text working_text corrections error suggestion,
    Spec.accepted self text error = Some suggestion ->
    Checker.err_word error <> EmptyString ->
    PyStr.find working_text (Checker.err_word error) = None ->
    Checker.correct_step self text (working_text, corrections) error
    = Ok (working_text,
          (corrections
           ++ [Checker.mk_correction (Checker.err_word error) suggestion
                 (Checker.err_type error)])%list).
Proof.
  intros self text working_text corrections error suggestion Hacc Hne Hfind.
  rewrite (correct_step_accepted _ _ _ _ _ _ Hacc).
  now rewrite replace_absent.
Qed.

Lemma correction_recorded_without_occurrence_witness :
  Checker.correct_step Terms.positional_checker "wich wich"
    ("which which", [Checker.mk_correction "wich" "which" "spelling"])
    (Checker.mk_error "wich" 5 "spelling" [] None)
  = Ok ("which which",
        [Checker.mk_correction "wich" "which" "spelling";
         Checker.mk_correction "wich" "witch" "spelling"]).
Proof.
  apply (correction_recorded_without_occurrence Terms.positional_checker
           "wich wich" "which which"
           [Checker.mk_correction "wich" "which" "spelling"]
           (Checker.mk_error "wich" 5 "spelling" [] None) "witch").
  - reflexivity.
  - discriminate.
  - reflexivity.
Defined.

Section ModelDown.

Import Checker.

Variable self : ContextAwareSpellChecker.

Hypothesis pipeline_down :
  forall masked_text top_k, exists e,
    fill_mask_pipeline self masked_text top_k = Raise e.

Lemma bert_down (text word : string) (position : nat) :
  _bert_correct_spelling self text word position = None.
Proof.
  unfold _bert_correct_spelling.
  destruct (pipeline_down
              (PyStr.take position text ++ "[MASK]"
               ++ PyStr.drop (position + String.length word) text) 5)
    as [e He].
  now rewrite He.
Qed.

Lemma apply_loop_down (text : string) (errors : list DetectedError)
    (st : working) :
  Forall (fun e => err_type e = "spelling") errors ->
  for_each (correct_step self text) errors st = Ok st.
Proof.
  induction 1 as [|e errors He _ IH]; [reflexivity|].
  cbn [for_each]. rewrite correct_step_not_accepted; [exact IH|exact He|].
  unfold Spec.accepted. now rewrite He, bert_down.
Qed.

End ModelDown.

(** X5.  When every call of the fill-mask model raises, [correct_text]
    still returns: the detected errors are listed, the text is unchanged,
    no correction is recorded and the confidence is 1.0. *)
Theorem model_down_text_unchanged :
  forall self text,
    (forall masked_text top_k, exists e,
        Checker.fill_mask_pipeline self masked_text top_k = Raise e) ->
    exists errors,
      Checker.detect_errors self text = Ok errors
      /\ Checker.correct_text self text
         = Ok (Checker.mk_result text text errors 1.0%Q "mixed" []).
Proof.
  intros self text Hdown.
  exists (Spec.spelling_errors self (Checker.nlp self text)).
  split; [apply detect_errors_spelling|].
  unfold Checker.correct_text, Checker.apply_corrections.
  rewrite detect_errors_spelling. cbn [bind].
  rewrite (apply_loop_down self Hdown); [reflexivity|].
  apply spelling_errors_type.
Qed.

Lemma model_down_text_unchanged_witness :
  exists errors,
    Checker.detect_errors Fixtures.offline_checker "wich cat" = Ok errors
    /\ Checker.correct_text Fixtures.offline_checker "wich cat"
       = Ok (Checker.mk_result "wich cat" "wich cat" errors 1.0%Q "mixed" []).
Proof.
  apply (model_down_text_unchanged Fixtures.offline_checker "wich cat").
  intros masked_text top_k.
  exists (CollaboratorError "fill-mask service unavailable"). reflexivity.
Defined.

(* ------------------------------------------------------------------ *)
(** ** What [correct_text] records *)

Section Recorded.

Import Checker.

Variable self : ContextAwareSpellChecker.

Lemma bert_answer_differs (text word : string) (position : nat) (s : string) :
  _bert_correct_spelling self text word position = Some s ->
  PyStr.lower s <> PyStr.lower word.
Proof.
  unfold _bert_correct_spelling.
  destruct (fill_mask_pipeline self _ 5) as [predictions|e]; [|discriminate].
  cbv zeta.
  pose proof (filter_head
                (fun p => negb (PyStr.lower (token_str p) =? PyStr.lower word))
                predictions) as H.
  destruct (filter _ predictions) as [|p kept]; [discriminate|].
  destruct H as (_ & _ & _ & _ & Hp).
  intros E. injection E as <-. now apply differs_true.
Qed.

Lemma truthy_not_empty (s : string) : PyStr.truthy s = true -> s <> EmptyString.
Proof.
  destruct s; [discriminate|]. intros _. discriminate.
Qed.

Lemma step_spelling_cases (text working_text : string)
    (corrections : list CorrectionRecord) (error : DetectedError) :
  err_type error = "spelling" ->
  correct_step self text (working_text, corrections) error
  = Ok (working_text, corrections)
  \/ exists s,
       s <> EmptyString
       /\ PyStr.lower s <> PyStr.lower (err_word error)
       /\ correct_step self text (working_text, corrections) error
          = Ok (PyStr.replace working_text (err_word error) s,
                (corrections ++ [mk_correction (err_word error) s "spelling"])%list).
Proof.
  intros Es. unfold correct_step. rewrite Es.
  change ("spelling" =? "spelling") with true. cbv iota.
  destruct (_bert_correct_spelling self text _ _) as [s|] eqn:Hb;
    [|now left].
  destruct (PyStr.truthy s) eqn:Ht; [|now left].
  right. exists s. repeat split.
  - now apply truthy_not_empty.
  - eapply bert_answer_differs. exact Hb.
Qed.

Lemma apply_loop_records (text : string) (errors : list DetectedError) :
  Forall (fun e => err_type e = "spelling") errors ->
  forall working_text corrections,
  exists added,
    for_each (correct_step self text) errors (working_text, corrections)
    = Ok (fold_left (fun w c => PyStr.replace w (original c) (corrected c))
                    added working_text,
          (corrections ++ added)%list)
    /\ Forall (Terms.sound_correction (map err_word errors)) added
    /\ length added <= length errors.
Proof.
  induction 1 as [|e errors He _ IH]; intros working_text corrections.
  - exists []. cbn. rewrite app_nil_r. repeat split; [constructor|lia].
  - cbn [for_each].
    destruct (step_spelling_cases text working_text corrections e He)
      as [-> | (s & Hs & Hd & ->)]; cbn [bind].
    + destruct (IH working_text corrections) as (added & -> & Hall & Hlen).
      exists added. repeat split.
      * eapply Forall_impl; [|exact Hall].
        intros c (H1 & H2 & H3 & H4). repeat split; try assumption.
        cbn [map]. now right.
      * cbn [length]. lia.
    + destruct (IH (PyStr.replace working_text (err_word e) s)
                   (corrections ++ [mk_correction (err_word e) s "spelling"])%list)
        as (added & -> & Hall & Hlen).
      exists (mk_correction (err_word e) s "spelling" :: added).
      cbn [fold_left original corrected]. rewrite <- app_assoc. cbn [app].
      repeat split.
      * constructor.
        -- repeat split; cbn; try assumption. now left.
        -- eapply Forall_impl; [|exact Hall].
           intros c (H1 & H2 & H3 & H4). repeat split; try assumption.
           cbn [map]. now right.
      * cbn [length]. lia.
Qed.

Lemma correct_text_records (text : string) :
  exists added,
    correct_text self text
    = Ok (mk_result text
            (fold_left (fun w c => PyStr.replace w (original c) (corrected c))
                       added text)
            (Spec.spelling_errors self (nlp self text))
            (_calculate_confidence added) "mixed" added)
    /\ Forall (Terms.sound_correction
                 (map err_word (Spec.spelling_errors self (nlp self text))))
              added
    /\ length added <= length (Spec.spelling_errors self (nlp self text)).
Proof.
  destruct (apply_loop_records text _ (spelling_errors_type self (nlp self text))
              text []) as (added & Hloop & Hall & Hlen).
  exists added. split; [|now split].
  unfold correct_text, apply_corrections.
  rewrite detect_errors_spelling. cbn [bind]. rewrite Hloop. reflexivity.
Qed.



End Recorded.

(** X6.  [correct_text] always returns a result for the text it was given,
    listing the errors [detect_errors] found.  Every recorded correction is
    of kind spelling, replaces the word of a detected error by a non-empty
    word that differs from it case-insensitively, and there are at most as
    many corrections as detected errors. *)
Theorem correct_text_sound_corrections :
  forall self text,
    exists r,
      Checker.correct_text self text = Ok r
      /\ Checker.original_text r = text
      /\ Checker.detect_errors self text = Ok (Checker.suggestions r)
      /\ Forall (fun c =>
                   Checker.correction_type c = "spelling"
                   /\ Checker.corrected c <> EmptyString
                   /\ PyStr.lower (Checker.corrected c)
                      <> PyStr.lower (Checker.original c)
                   /\ In (Checker.original c)
                         (map Checker.err_word (Checker.suggestions r)))
                (Checker.corrections_made r)
      /\ length (Checker.corrections_made r) <= length (Checker.suggestions r).
Proof.
  intros self text.
  destruct (correct_text_records self text) as (added & Hr & Hall & Hlen).
  eexists. split; [exact Hr|].
  cbn [Checker.original_text Checker.suggestions Checker.corrections_made].
  repeat split; [apply detect_errors_spelling|exact Hall|exact Hlen].
Qed.

(** X7.  The corrected text can be rebuilt from the result alone: it is the
    original text after the recorded corrections are applied in order, each
    as a replacement of every occurrence of its original word. *)
Theorem corrected_text_replays_corrections :
  forall self text,
    exists r,
      Checker.correct_text self text = Ok r
      /\ Checker.corrected_text r
         = fold_left (fun w c => PyStr.replace w (Checker.original c)
                                   (Checker.corrected c))
                     (Checker.corrections_made r) (Checker.original_text r).
Proof.
  intros self text.
  destruct (correct_text_records self text) as (added & Hr & _).
  eexists. split; [exact Hr|]. reflexivity.
Qed.


(* ------------------------------------------------------------------ *)
(** ** Word and character counts *)

Section Counts.

Lemma count_tokens_bounds (s : string) :
  2 * Spec.count_tokens true s <= String.length s
  /\ 2 * Spec.count_tokens false s <= String.length s + 1.
Proof.
  induction s as [|c s [IHt IHf]]; cbn [Spec.count_tokens String.length].
  - lia.
  - destruct (PyStr.isspace c); lia.
Qed.

Lemma count_tokens_zero (s : string) :
  Spec.count_tokens false s = 0 <-> Terms.all_space s = true.
Proof.
  induction s as [|c s IH]; cbn [Spec.count_tokens Terms.all_space].
  - now split.
  - destruct (PyStr.isspace c); cbn [andb].
    + exact IH.
    + split; [|discriminate]. cbn [Nat.add]. discriminate.
Qed.

End Counts.

(** X9.  For a text made of non-empty, whitespace-free words joined by
    single spaces, [split] gives the words back, so the word count
    [get_text_statistics] reports is the number of words. *)
Theorem word_count_of_joined_words :
  forall self ws,
    Forall (fun w => w <> EmptyString /\ Spec.no_space w = true) ws ->
    PyStr.split (PyStr.join " " ws) = ws
    /\ Checker.word_count (Checker.get_text_statistics self (PyStr.join " " ws))
       = length ws.
Proof.
  intros self ws H. cbn [Checker.get_text_statistics Checker.word_count].
  rewrite (split_join ws H). now split.
Qed.

Lemma word_count_of_joined_words_witness :
  PyStr.split "She went to the sea" = ["She"; "went"; "to"; "the"; "sea"]
  /\ Checker.word_count
       (Checker.get_text_statistics Fixtures.which_checker "She went to the sea")
     = 5.
Proof.
  apply (word_count_of_joined_words Fixtures.which_checker
           ["She"; "went"; "to"; "the"; "sea"]).
  repeat constructor; discriminate.
Defined.

(** X10.  Words need separators: twice the word count never exceeds the
    character count plus one. *)
Theorem word_count_bounded_by_length :
  forall self text,
    2 * Checker.word_count (Checker.get_text_statistics self text)
    <= Checker.character_count (Checker.get_text_statistics self text) + 1.
Proof.
  intros self text.
  cbn [Checker.get_text_statistics Checker.word_count Checker.character_count].
  rewrite split_length. apply count_tokens_bounds.
Qed.

(** X11.  The word count is 0 exactly for the texts that consist of
    whitespace only (the empty text among them). *)
Theorem word_count_zero_iff_blank :
  forall self text,
    Checker.word_count (Checker.get_text_statistics self text) = 0
    <-> Terms.all_space text = true.
Proof.
  intros self text. cbn [Checker.get_text_statistics Checker.word_count].
  rewrite split_length. apply count_tokens_zero.
Qed.

Lemma word_count_zero_iff_blank_witness :
  Checker.word_count (Checker.get_text_statistics Fixtures.which_checker "   ")
  = 0.
Proof.
  apply (proj2 (word_count_zero_iff_blank Fixtures.which_checker "   ")).
  reflexivity.
Defined.

(* ------------------------------------------------------------------ *)
(** ** Homophone groups read back from the store *)

Section Groups.

Import MockDatabase.

Lemma split_on_not_empty (sep : ascii) (s : string) : PyStr.split_on sep s <> [].
Proof.
  destruct s as [|c s]; simpl; [discriminate|].
  destruct (Ascii.eqb c sep); [discriminate|].
  destruct (PyStr.split_on sep s); discriminate.
Qed.

Lemma join_cons_char (sep : string) (c : ascii) (w : string) (ws : list string) :
  PyStr.join sep (String c w :: ws) = String c (PyStr.join sep (w :: ws)).
Proof.
  unfold PyStr.join. now destruct ws.
Qed.

(** Joining the fields [split_on] cut gives the string back. *)
Lemma join_split_on (sep : ascii) (s : string) :
  PyStr.join (String sep EmptyString) (PyStr.split_on sep s) = s.
Proof.
  induction s as [|c s IH]; [reflexivity|].
  cbn [PyStr.split_on].
  pose proof (split_on_not_empty sep s) as Hne.
  destruct (Ascii.eqb_spec c sep) as [->|Hc].
  - destruct (PyStr.split_on sep s) as [|w ws]; [contradiction|].
    unfold PyStr.join in *.
    change (String.concat (String sep EmptyString) (EmptyString :: w :: ws))
      with (EmptyString ++ String sep EmptyString
            ++ String.concat (String sep EmptyString) (w :: ws)).
    now rewrite IH.
  - destruct (PyStr.split_on sep s) as [|w ws]; [contradiction|].
    now rewrite join_cons_char, IH.
Qed.

Lemma split_on_fields (sep : ascii) (s : string) :
  Forall (fun w => Terms.count_char sep w = 0) (PyStr.split_on sep s)
  /\ length (PyStr.split_on sep s) = Terms.count_char sep s + 1.
Proof.
  induction s as [|c s [IHf IHl]]; cbn [PyStr.split_on Terms.count_char].
  - split; [repeat constructor|reflexivity].
  - pose proof (split_on_not_empty sep s) as Hne.
    destruct (Ascii.eqb c sep) eqn:Hc.
    + split; [now constructor|]. cbn [length]. lia.
    + destruct (PyStr.split_on sep s) as [|w ws]; [contradiction|].
      inversion IHf as [|? ? Hw Hws]; subst. split.
      * constructor; [|assumption]. cbn [Terms.count_char]. now rewrite Hc.
      * cbn [length] in *. lia.
Qed.

Lemma get_homophones_rows (db : db_file) :
  get_homophones db
  = map (fun row => mk_group (word_group row)
                      (PyStr.split_on "," (words row))
                      (context_rules row) (examples row))
        (map snd (rows (homophones db))).
Proof.
  unfold get_homophones. now rewrite map_map.
Qed.

Lemma get_homophones_populate (db : db_file) :
  get_homophones (populate_sample_data db)
  = (get_homophones db ++ Terms.sample_groups)%list.
Proof.
  rewrite !get_homophones_rows. unfold populate_sample_data.
  cbn [homophones]. now rewrite executemany_rows, map_app.
Qed.

End Groups.

(** X12.  Seeding keeps the homophone groups already stored, in order, and
    appends the four sample groups after them on every run: [n] runs on a
    fresh database make [get_homophones] return [4 * n] groups. *)
Theorem seeding_appends_sample_groups :
  (forall db,
      MockDatabase.get_homophones (MockDatabase.populate_sample_data db)
      = (MockDatabase.get_homophones db ++ Terms.sample_groups)%list)
  /\ (forall n,
         length (MockDatabase.get_homophones
                   (MockDatabase.reseed n (MockDatabase.init_database None)))
         = 4 * n).
Proof.
  split; [exact get_homophones_populate|].
  induction n as [|n IH]; [reflexivity|].
  cbn [MockDatabase.reseed].
  rewrite get_homophones_populate, length_app, IH.
  change (length Terms.sample_groups) with 4. lia.
Qed.

(** X13.  [get_homophones] cuts the stored [words] column at its commas:
    joining the members of a group with commas gives the stored string
    back, no member contains a comma, and a group has one member more than
    the column has commas (so never none). *)
Theorem homophone_members_round_trip :
  forall db,
    map (fun g => PyStr.join "," (MockDatabase.group_words g))
        (MockDatabase.get_homophones db)
    = map (fun row => MockDatabase.words (snd row))
          (MockDatabase.rows (MockDatabase.homophones db))
    /\ Forall (fun g => Forall (fun w => Terms.count_char "," w = 0)
                               (MockDatabase.group_words g))
              (MockDatabase.get_homophones db)
    /\ map (fun g => length (MockDatabase.group_words g))
           (MockDatabase.get_homophones db)
       = map (fun row => Terms.count_char "," (MockDatabase.words (snd row)) + 1)
             (MockDatabase.rows (MockDatabase.homophones db)).
Proof.
  intros db. unfold MockDatabase.get_homophones.
  rewrite !map_map. cbn [MockDatabase.group_words].
  repeat split.
  - apply map_ext. intros row. apply join_split_on.
  - apply Forall_map, Forall_forall. intros row _.
    cbn [MockDatabase.group_words]. apply split_on_fields.
  - apply map_ext. intros row. apply split_on_fields.
Qed.

(* ------------------------------------------------------------------ *)
(** ** More on the context window and the homophone check *)

Section Window.

Import Checker.

Lemma append_empty_r (s : string) : s ++ "" = s.
Proof.
  induction s as [|c s IH]; simpl; [reflexivity|now rewrite IH].
Qed.

Lemma append_associative (a b c : string) : (a ++ b) ++ c = a ++ b ++ c.
Proof.
  induction a as [|x a IH]; simpl; [reflexivity|now rewrite IH].
Qed.

Lemma find_at_prefix (s sub : string) :
  String.prefix sub s = true -> PyStr.find s sub = Some 0.
Proof.
  intros H. destruct s as [|c s]; cbn [PyStr.find]; now rewrite H.
Qed.

Lemma contains_inside (pre sub post : string) :
  PyStr.contains (pre ++ sub ++ post) sub = true.
Proof.
  unfold PyStr.contains.
  induction pre as [|c pre IH].
  - cbn [append]. now rewrite find_at_prefix by apply prefix_append.
  - cbn [append]. rewrite find_cons.
    destruct (String.prefix sub _); [reflexivity|].
    now destruct (PyStr.find (pre ++ sub ++ post) sub).
Qed.

Lemma join_member (sep x : string) (ws : list string) :
  In x ws -> exists a b, PyStr.join sep ws = a ++ x ++ b.
Proof.
  unfold PyStr.join.
  induction ws as [|y ws IH]; intros Hin; [destruct Hin|].
  destruct ws as [|z ws].
  - destruct Hin as [->|[]]. exists "", "". cbn. now rewrite append_empty_r.
  - change (String.concat sep (y :: z :: ws))
      with (y ++ sep ++ String.concat sep (z :: ws)).
    destruct Hin as [->|Hin].
    + now exists "", (sep ++ String.concat sep (z :: ws)).
    + destruct (IH Hin) as (a & b & ->).
      exists (y ++ sep ++ a), b. now rewrite !append_associative.
Qed.

Lemma first_occurrence (words : list string) (x : string) :
  In x words ->
  exists pre post, words = (pre ++ x :: post)%list /\ ~ In x pre.
Proof.
  induction words as [|w words IH]; intros Hin; [destruct Hin|].
  destruct (string_dec w x) as [->|Hne].
  - exists [], words. split; [reflexivity|intros []].
  - destruct Hin as [E|Hin]; [contradiction|].
    destruct (IH Hin) as (pre & post & -> & Hnot).
    exists (w :: pre), post. split; [reflexivity|].
    intros [E|H]; [contradiction|now apply Hnot].
Qed.

Lemma lastn_length {A : Type} (n : nat) (xs : list A) :
  length (Spec.lastn n xs) <= n.
Proof.
  unfold Spec.lastn. rewrite length_skipn. lia.
Qed.

End Window.

(** X14.  When the target word is among the tokens, the context window is
    made of at most [2 * window_size + 1] of them, the target included, so
    the target word can always be found in the window. *)
Theorem context_window_holds_target :
  forall doc target window_size,
    In target (map Checker.token_text doc) ->
    exists ws,
      Checker._get_context_window doc target window_size = PyStr.join " " ws
      /\ In target ws
      /\ length ws <= 2 * window_size + 1
      /\ PyStr.contains (Checker._get_context_window doc target window_size)
           target = true.
Proof.
  intros doc target n Hin.
  destruct (first_occurrence _ _ Hin) as (pre & post & Hdoc & Hnot).
  exists (Spec.lastn n pre ++ target :: firstn n post)%list.
  rewrite (context_window_located doc target pre post n Hdoc Hnot).
  assert (Hmem : In target (Spec.lastn n pre ++ target :: firstn n post)%list)
    by apply in_elt.
  repeat split; [exact Hmem| |].
  - rewrite length_app. cbn [length].
    pose proof (lastn_length n pre). pose proof (firstn_le_length n post). lia.
  - destruct (join_member " " target _ Hmem) as (a & b & ->).
    apply contains_inside.
Qed.

Lemma context_window_holds_target_witness :
  exists ws,
    Checker._get_context_window
      (Fixtures.whitespace_nlp "This is a test sentence") "test" 3
    = PyStr.join " " ws
    /\ In "test" ws
    /\ length ws <= 2 * 3 + 1
    /\ PyStr.contains
         (Checker._get_context_window
            (Fixtures.whitespace_nlp "This is a test sentence") "test" 3)
         "test" = true.
Proof.
  apply (context_window_holds_target
           (Fixtures.whitespace_nlp "This is a test sentence") "test" 3).
  simpl. tauto.
Defined.

(** X15.  The context rules know three words only: for a word whose
    lower-case form is none of "there", "their" and "they're" (the members
    of the other groups, "to", "its", "your" and so on) they answer nothing,
    whatever the context and the group. *)
Theorem context_rules_three_words_only :
  forall word context g,
    ~ In (PyStr.lower word) ["there"; "their"; "they're"] ->
    Checker._analyze_homophone_context word context g = None.
Proof.
  intros word context g Hnot. unfold Checker._analyze_homophone_context.
  destruct (String.eqb_spec (PyStr.lower word) "there") as [E|_].
  { exfalso. apply Hnot. rewrite E. now left. }
  destruct (String.eqb_spec (PyStr.lower word) "their") as [E|_].
  { exfalso. apply Hnot. rewrite E. right. now left. }
  destruct (String.eqb_spec (PyStr.lower word) "they're") as [E|_].
  { exfalso. apply Hnot. rewrite E. right. right. now left. }
  reflexivity.
Qed.

Lemma context_rules_three_words_only_witness :
  Checker._analyze_homophone_context "to" "weather is to hot for"
    (MockDatabase.mk_group "to/too/two" ["to"; "too"; "two"]
       "preposition,adverb,number" "")
  = None.
Proof.
  apply context_rules_three_words_only.
  simpl. intros H.
  repeat (destruct H as [H|H]; [discriminate H|]). exact H.
Defined.

Section GroupLoop.

Import Checker.

Variable analyze : string -> string -> MockDatabase.HomophoneGroup -> option string.

Lemma check_groups_reported (word : string) (doc : list Token)
    (groups : list MockDatabase.HomophoneGroup) (e : DetectedError) :
  check_groups analyze word doc groups = Ok (Some e) ->
  exists g correct_word,
    In g groups
    /\ PyStr.mem (PyStr.lower word) (MockDatabase.group_words g) = true
    /\ analyze word (_get_context_window doc word 3) g = Some correct_word
    /\ correct_word <> EmptyString
    /\ PyStr.lower correct_word <> PyStr.lower word
    /\ err_suggestions e = [correct_word]
    /\ err_confidence e = Some 0.8%Q.
Proof.
  induction groups as [|g rest IH]; cbn [check_groups]; [discriminate|].
  assert (Hrest : check_groups analyze word doc rest = Ok (Some e) ->
                  exists g0 correct_word,
                    In g0 (g :: rest)
                    /\ PyStr.mem (PyStr.lower word) (MockDatabase.group_words g0)
                       = true
                    /\ analyze word (_get_context_window doc word 3) g0
                       = Some correct_word
                    /\ correct_word <> EmptyString
                    /\ PyStr.lower correct_word <> PyStr.lower word
                    /\ err_suggestions e = [correct_word]
                    /\ err_confidence e = Some 0.8%Q).
  { intros H. destruct (IH H) as (g0 & cw & Hin & Hrest).
    exists g0, cw. split; [now right|exact Hrest]. }
  destruct (PyStr.mem _ _) eqn:Hmem; [|exact Hrest].
  destruct (analyze word _ g) as [correct_word|] eqn:Ha; [|exact Hrest].
  destruct (PyStr.truthy correct_word) eqn:Ht; cbn [andb]; [|exact Hrest].
  destruct (negb _) eqn:Hd; [|exact Hrest].
  destruct (first_token_idx doc word) as [position|ex]; [|discriminate].
  cbn [bind]. intros H. injection H as <-.
  exists g, correct_word. repeat split; try assumption.
  - now left.
  - destruct correct_word; [discriminate|]. discriminate.
  - now apply differs_true.
Qed.

Lemma check_groups_raises (word : string) (doc : list Token)
    (groups : list MockDatabase.HomophoneGroup) (ex : exn) :
  check_groups analyze word doc groups = Raise ex ->
  ex = StopIteration /\ ~ In word (map token_text doc).
Proof.
  induction groups as [|g rest IH]; cbn [check_groups]; [discriminate|].
  destruct (PyStr.mem _ _); [|exact IH].
  destruct (analyze word _ g) as [correct_word|]; [|exact IH].
  destruct (_ && _); [|exact IH].
  unfold first_token_idx.
  destruct (List.find _ doc) as [token|] eqn:Hfind; [discriminate|].
  cbn [bind]. intros H. injection H as <-. split; [reflexivity|].
  intros Hin. apply in_map_iff in Hin. destruct Hin as (token & Ht & Hin).
  pose proof (find_none _ _ Hfind token Hin) as Hf. cbv beta in Hf.
  rewrite Ht, String.eqb_refl in Hf. discriminate.
Qed.

End GroupLoop.

(** X16.  Whatever context analysis is plugged in, an error
    [_check_homophones] reports comes from a group that has the lower-case
    word as a member; it carries exactly one suggestion, the answer of the
    analysis for that group on the 3-token window, which is not empty and
    differs case-insensitively from the word; its confidence is 0.8. *)
Theorem homophone_error_shape :
  forall analyze self word doc e,
    Checker._check_homophones_with analyze self word doc = Ok (Some e) ->
    exists g correct_word,
      In g (MockDatabase.get_homophones (Checker.db self))
      /\ PyStr.mem (PyStr.lower word) (MockDatabase.group_words g) = true
      /\ analyze word (Checker._get_context_window doc word 3) g
         = Some correct_word
      /\ correct_word <> EmptyString
      /\ PyStr.lower correct_word <> PyStr.lower word
      /\ Checker.err_suggestions e = [correct_word]
      /\ Checker.err_confidence e = Some 0.8%Q.
Proof.
  intros analyze self word doc e. apply check_groups_reported.
Qed.

Lemma homophone_error_shape_witness :
  exists g correct_word,
    In g (MockDatabase.get_homophones (Checker.db Fixtures.which_checker))
    /\ PyStr.mem (PyStr.lower "Their") (MockDatabase.group_words g) = true
    /\ Fixtures.proposing_analysis "Their"
         (Checker._get_context_window
            (Fixtures.whitespace_nlp "Their going to the store") "Their" 3) g
       = Some correct_word
    /\ correct_word <> EmptyString
    /\ PyStr.lower correct_word <> PyStr.lower "Their"
    /\ ["they're"] = [correct_word]
    /\ Some 0.8%Q = Some 0.8%Q.
Proof.
  apply (homophone_error_shape Fixtures.proposing_analysis
           Fixtures.which_checker "Their"
           (Fixtures.whitespace_nlp "Their going to the store")
           (Checker.mk_error "Their" 0 "homophone" ["they're"] (Some 0.8%Q))).
  reflexivity.
Defined.

(** X17.  Whatever context analysis is plugged in, [_check_homophones] can
    only raise [StopIteration], and only for a word that is not the text of
    any token of the document; called on a token of the document, as
    [detect_errors] does, it never raises. *)
Theorem homophone_check_raises_only_off_document :
  forall analyze self word doc ex,
    Checker._check_homophones_with analyze self word doc = Raise ex ->
    ex = StopIteration /\ ~ In word (map Checker.token_text doc).
Proof.
  intros analyze self word doc ex. apply check_groups_raises.
Qed.

Lemma homophone_check_raises_only_off_document_witness :
  Checker._check_homophones_with Fixtures.proposing_analysis
    Fixtures.which_checker "Their" (Fixtures.whitespace_nlp "a cat")
  = Raise StopIteration
  /\ StopIteration = StopIteration
  /\ ~ In "Their" (map Checker.token_text (Fixtures.whitespace_nlp "a cat")).
Proof.
  split; [reflexivity|].
  apply (homophone_check_raises_only_off_document Fixtures.proposing_analysis
           Fixtures.which_checker "Their" (Fixtures.whitespace_nlp "a cat")).
  reflexivity.
Defined.

(* ------------------------------------------------------------------ *)
(** ** Order of the corrections and the confidence *)

Section Order.

Import Checker.


End Order.



(* ------------------------------------------------------------------ *)
(** ** The spell-check endpoint *)

